(** * aiofast: request binding and response normalisation

    A shallow embedding of [aiofast/handler.py] (class [AioFastView]) and
    the properties of its extraction / validation / dispatch / response
    pipeline.

    Conventions of the embedding.
    - Python [str] is a Rocq [string] holding the UTF-8 encoding of the
      text; its characters are the code points of that encoding
      ([str_chars]), so indexing and length count code points, not bytes.
      Raw bytes (a request body) are a [string] too.
    - A Python dict used as a map is a [gmap string _].
    - Raising is a value [Raise e] of [result]; code after a raise is not run.
    - Response objects are mutable and compared by identity, so they live in
      a heap (a list of cells) and are named by their index. *)

From Stdlib Require Import ZArith Ascii String.
From stdpp Require Import base option list strings gmap.

Local Open Scope string_scope.
Local Open Scope Z_scope.
Local Set Warnings "-register-all".

(** ** Python values *)

(** Untyped data as it reaches the handler layer: what [json.loads],
    [request.text()] and [_parse_qs] produce, and what the builtin
    constructors return.  [PDict] lists the items of a dict (distinct
    keys); [PObject] is any other object (the JSON encoder has no rule for
    it). *)
Inductive pyval : Type :=
| PNone
| PBool (b : bool)
| PInt (n : Z)
| PStr (s : string)
| PList (items : list pyval)
| PDict (items : list (string * pyval))
| PObject (cls : string).

(** [bool(v)]: the truth value tested by [if v:]. *)
Definition truthy (v : pyval) : bool :=
  match v with
  | PNone => false
  | PBool b => b
  | PInt n => negb (n =? 0)
  | PStr s => negb (String.eqb s EmptyString)
  | PList items => match items with [] => false | _ => true end
  | PDict items => match items with [] => false | _ => true end
  | PObject _ => true
  end.

(** ** Exceptions and results *)

(** The two messages of [ExtractionTypeError], by their parts. *)
Inductive extraction_failure : Type :=
| MissingParameterType (name : string)
| UnexpectedParameter (name : string) (supported : gset string).

Inductive exn : Type :=
| HTTPMethodNotAllowed (method : string) (allowed_methods : gset string)
| WrongAnnotatedWebResponseError
| ExtractionTypeError (why : extraction_failure)
| HandlerResultTypeError
| UnexpectedHttpCodeError
| NotOriginalResponseError
| UnhandledResponseTypeError
| CannotSerializeResponseError
| MissingContentTypeError (msg : string)
| UnexpectedContentTypeError (msg : string)
| JSONDecodeError
| UnicodeDecodeError
| ValueError
| TypeError
| IndexError
| KeyError.

Inductive result (A : Type) : Type :=
| Ok (a : A)
| Raise (e : exn).
Arguments Ok {A} a.
Arguments Raise {A} e.

#[global] Instance result_ret : MRet result := fun A a => Ok a.
#[global] Instance result_bind : MBind result := fun A B f m =>
  match m with
  | Ok a => f a
  | Raise e => Raise e
  end.

(** What [except (ValueError, TypeError)] catches: [JSONDecodeError] and
    [UnicodeDecodeError] derive from [ValueError]; the lookup errors and
    the aiohttp exception do not.  The exceptions of the package come from
    its module [exceptions]; a constructor of a body type does not raise
    them, and they are counted as not caught. *)
Definition is_value_or_type_error (e : exn) : bool :=
  match e with
  | ValueError | TypeError | JSONDecodeError | UnicodeDecodeError => true
  | _ => false
  end.

(** [status_code] of the aiohttp exception classes raised by this layer;
    every other exception reaches the transport as a server error. *)
Definition exn_status_code (e : exn) : Z :=
  match e with
  | HTTPMethodNotAllowed _ _ => 405
  | _ => 500
  end.

(** ** Strings: the pieces of [str] and [urllib.parse] that are used *)

Definition ascii_lower (c : ascii) : ascii :=
  let n := nat_of_ascii c in
  if (65 <=? n)%nat && (n <=? 90)%nat then ascii_of_nat (n + 32) else c.

(** [s.lower()] on ASCII letters. *)
Fixpoint lower (s : string) : string :=
  match s with
  | EmptyString => EmptyString
  | String c s' => String (ascii_lower c) (lower s')
  end.

(** [s.split(sep)] for a one-character separator. *)
Fixpoint split (sep : ascii) (s : string) : list string :=
  match s with
  | EmptyString => [EmptyString]
  | String c s' =>
      if Ascii.eqb c sep then EmptyString :: split sep s'
      else match split sep s' with
           | h :: t => String c h :: t
           | [] => [String c EmptyString]
           end
  end.

(** [s.split('=', 1)] when it has two parts; [None] when there is no ['=']. *)
Fixpoint split_eq (s : string) : option (string * string) :=
  match s with
  | EmptyString => None
  | String c s' =>
      if Ascii.eqb c "="%char then Some (EmptyString, s')
      else match split_eq s' with
           | Some (n, v) => Some (String c n, v)
           | None => None
           end
  end.

(** [s.replace('+', ' ')]. *)
Fixpoint plus_to_space (s : string) : string :=
  match s with
  | EmptyString => EmptyString
  | String c s' =>
      String (if Ascii.eqb c "+"%char then " "%char else c) (plus_to_space s')
  end.

Definition hex_digit (c : ascii) : option nat :=
  let n := nat_of_ascii c in
  if (48 <=? n)%nat && (n <=? 57)%nat then Some (n - 48)%nat
  else if (65 <=? n)%nat && (n <=? 70)%nat then Some (n - 55)%nat
  else if (97 <=? n)%nat && (n <=? 102)%nat then Some (n - 87)%nat
  else None.

(** [urllib.parse.unquote_to_bytes]: every [%XY] with two hex digits
    becomes the byte [XY]; a [%] not followed by two hex digits stays. *)
Fixpoint unquote_to_bytes (s : string) : string :=
  match s with
  | EmptyString => EmptyString
  | String c s' =>
      if Ascii.eqb c "%"%char then
        match s' with
        | String h (String l rest) =>
            match hex_digit h, hex_digit l with
            | Some a, Some b => String (ascii_of_nat (16 * a + b)) (unquote_to_bytes rest)
            | _, _ => String c (unquote_to_bytes s')
            end
        | _ => String c (unquote_to_bytes s')
        end
      else String c (unquote_to_bytes s')
  end.

(** *** UTF-8 *)

(** One step of decoding: a well-formed code point with its bytes, or an
    ill-formed run of bytes (the longest prefix of a code point that the
    next byte does not continue; a byte that can start nothing, alone). *)
Inductive utf8_token : Type :=
| Scalar (bytes : string)
| Malformed (bytes : string).

(** What a first byte announces: a token at once, or the number of
    continuation bytes to come with the range allowed for the next one. *)
Definition utf8_lead (b : ascii) : utf8_token + (nat * nat * nat) :=
  let n := nat_of_ascii b in
  if (n <? 128)%nat then inl (Scalar (String b EmptyString))
  else if (194 <=? n)%nat && (n <=? 223)%nat then inr (1, 128, 191)%nat
  else if (n =? 224)%nat then inr (2, 160, 191)%nat
  else if (n =? 237)%nat then inr (2, 128, 159)%nat
  else if (225 <=? n)%nat && (n <=? 239)%nat then inr (2, 128, 191)%nat
  else if (n =? 240)%nat then inr (3, 144, 191)%nat
  else if (241 <=? n)%nat && (n <=? 243)%nat then inr (3, 128, 191)%nat
  else if (n =? 244)%nat then inr (3, 128, 143)%nat
  else inl (Malformed (String b EmptyString)).

(** A code point under way: continuation bytes still needed, the range
    allowed for the next byte, and the bytes read so far. *)
Record utf8_pending : Type := {
  need : nat;
  lo : nat;
  hi : nat;
  seen : string;
}.

(** The decoder, byte by byte.  A byte that does not continue the code
    point under way closes an ill-formed token and is looked at again as a
    first byte; so is the end of the data. *)
Fixpoint utf8_tokens (pending : option utf8_pending) (s : string) : list utf8_token :=
  match s with
  | EmptyString =>
      match pending with
      | Some p => [Malformed (seen p)]
      | None => []
      end
  | String b s' =>
      let start :=
        match utf8_lead b with
        | inl tok => tok :: utf8_tokens None s'
        | inr (n, l, h) =>
            utf8_tokens (Some {| need := n; lo := l; hi := h;
                                 seen := String b EmptyString |}) s'
        end in
      match pending with
      | None => start
      | Some p =>
          let n := nat_of_ascii b in
          if (lo p <=? n)%nat && (n <=? hi p)%nat then
            match need p with
            | S (S k) =>
                utf8_tokens (Some {| need := S k; lo := 128; hi := 191;
                                     seen := seen p +:+ String b EmptyString |}) s'
            | _ => Scalar (seen p +:+ String b EmptyString) :: utf8_tokens None s'
            end
          else Malformed (seen p) :: start
      end
  end.

(** U+FFFD, the replacement character. *)
Definition replacement_character : string :=
  String (ascii_of_nat 239) (String (ascii_of_nat 191) (String (ascii_of_nat 189) EmptyString)).

Definition token_bytes (t : utf8_token) : string :=
  match t with
  | Scalar bytes => bytes
  | Malformed bytes => bytes
  end.

(** The character a token decodes to with [errors='replace']. *)
Definition token_char (t : utf8_token) : string :=
  match t with
  | Scalar bytes => bytes
  | Malformed _ => replacement_character
  end.

Definition is_scalar (t : utf8_token) : bool :=
  match t with
  | Scalar _ => true
  | Malformed _ => false
  end.

(** The characters (code points) of a [str], each as a one-character
    [str]. *)
Definition str_chars (s : string) : list string :=
  token_char <$> utf8_tokens None s.

(** [len(s)]. *)
Definition str_len (s : string) : nat := List.length (str_chars s).

Fixpoint concat_strings (l : list string) : string :=
  match l with
  | [] => EmptyString
  | x :: l' => x +:+ concat_strings l'
  end.

(** [bytes.decode('utf-8', 'replace')]. *)
Definition utf8_decode_replace (bytes : string) : string :=
  concat_strings (str_chars bytes).

(** Whether [bytes.decode('utf-8')] succeeds. *)
Definition utf8_valid (bytes : string) : bool :=
  forallb is_scalar (utf8_tokens None bytes).

(** [urllib.parse.unquote(s)]: the percent-escapes are turned into bytes,
    which are decoded as UTF-8 with [errors='replace'].  (The library does
    so on each run of ASCII characters and leaves the other characters;
    on the encoding of a text that is the same, an escape being ASCII and a
    character that is not ASCII starting with a byte that continues
    nothing.) *)
Definition unquote (s : string) : string :=
  utf8_decode_replace (unquote_to_bytes s).

(** One field of [urllib.parse.parse_qsl] with its defaults
    ([keep_blank_values=False], [strict_parsing=False]): a field that is
    empty, has no ['='] or has an empty value is skipped. *)
Definition parse_qsl_field (name_value : string) : option (string * string) :=
  match split_eq name_value with
  | Some (n, v) =>
      if String.eqb v EmptyString then None
      else Some (unquote (plus_to_space n), unquote (plus_to_space v))
  | None => None
  end.

(** [urllib.parse.parse_qsl(qs)] (separator ['&']). *)
Definition parse_qsl (qs : string) : list (string * string) :=
  omap parse_qsl_field (split "&"%char qs).

(** ** [_parse_qs] *)

(** [v[0]]. *)
Definition getitem0 (v : pyval) : result pyval :=
  match v with
  | PStr s =>
      match str_chars s with
      | c :: _ => Ok (PStr c)
      | [] => Raise IndexError
      end
  | PList (x :: _) => Ok x
  | PList [] => Raise IndexError
  | PDict _ => Raise KeyError
  | _ => Raise TypeError
  end.

(** The body of the [for name, value in pairs] loop. *)
Definition _parse_qs_step (parsed_result : gmap string pyval)
    (nv : string * string) : result (gmap string pyval) :=
  let '(name, value) := nv in
  match parsed_result !! name with
  | Some stored =>
      fst_arg ← getitem0 stored;
      Ok (<[name := PList [fst_arg; PStr value]]> parsed_result)
  | None => Ok (<[name := PStr value]> parsed_result)
  end.

Fixpoint _parse_qs_loop (parsed_result : gmap string pyval)
    (pairs : list (string * string)) : result (gmap string pyval) :=
  match pairs with
  | [] => Ok parsed_result
  | nv :: pairs' =>
      parsed_result' ← _parse_qs_step parsed_result nv;
      _parse_qs_loop parsed_result' pairs'
  end.

Definition _parse_qs (qs : string) : result (gmap string pyval) :=
  _parse_qs_loop ∅ (parse_qsl qs).


(** ** Data model *)

(** One segment of the path to a field ([loc] of pydantic's [ErrorDict]). *)
Inductive loc_item : Type :=
| LocStr (s : string)
| LocInt (i : Z).

(** pydantic's [ErrorDict]: [{'loc': ..., 'msg': ..., 'type': ...}]. *)
Record ErrorDict : Type := {
  loc : list loc_item;
  msg : string;
  type : string;
}.

(** An instance of a pydantic model: its field values. *)
Record BaseModel : Type := {
  model_fields : list (string * pyval);
}.

(** A pydantic model class (an instance of [ModelMetaclass]).
    Calling it with keyword arguments either builds an instance or raises
    [ValidationError]; [inr errs] stands for the raise, [errs] being
    [ve.errors()]. *)
Record ModelClass : Type := {
  model_name : string;
  validate : gmap string pyval → BaseModel + list ErrorDict;
}.

(** The builtin types that have a dedicated pydantic error kind. *)
Inductive builtin : Type := Int | Str | Float | Dict | Bytes | Bool.

Inductive type_id : Type :=
| Builtin (b : builtin)
| OtherType (repr : string).

(** Any other type object used as an annotation: who it is, and what calling
    it with one positional argument and with keyword arguments does. *)
Record PlainType : Type := {
  type_ident : type_id;
  call : pyval → result pyval;
  call_kwargs : gmap string pyval → result pyval;
}.

(** What a parameter of a handler method can be annotated with.  Classes
    are truthy objects; [AnnNone] is the annotation [None], which is not. *)
Inductive annotation : Type :=
| AnnModel (schema : ModelClass)
| AnnResponse                      (* aiohttp's [web.Response] class itself *)
| AnnType (t : PlainType)
| AnnNone.

(** [if a:] on an annotation. *)
Definition annotation_truthy (a : annotation) : bool :=
  match a with
  | AnnNone => false
  | _ => true
  end.

(** A validated value, as bound to a handler parameter. *)
Inductive validated : Type :=
| VModel (m : BaseModel)
| VValue (v : pyval).

(** [if x:] on a validated value; model instances are plain objects. *)
Definition validated_truthy (x : validated) : bool :=
  match x with
  | VModel _ => true
  | VValue v => truthy v
  end.

(** Keyword arguments given to the handler method. *)
Inductive argument : Type :=
| ArgValidated (x : validated)
| ArgResponse (r : nat).

Record _ExtractedAnnotations : Type := {
  headers : option annotation;
  match_info : option annotation;
  query_params : option annotation;
  body : option annotation;
  response : option annotation;
}.

(** [_ExtractedData]; a slot of [validation_errors] holds whatever the
    validator returned as its second component, which can be [None]. *)
Record _ExtractedData : Type := {
  method_params : gmap string argument;
  validation_errors : gmap string (option (list ErrorDict));
}.

(** The envelope; its field [result] is [result_] here. *)
Record _ResponseSchema : Type := {
  errors : option (gmap string (option (list ErrorDict)));
  result_ : option BaseModel;
}.

(** [_ResponseSchema()]. *)
Definition new_ResponseSchema : _ResponseSchema :=
  {| errors := None; result_ := None |}.

(** [d1 | d2] on dicts: the right operand wins. *)
Definition set_client_error (self : _ResponseSchema)
    (error : gmap string (option (list ErrorDict))) : _ResponseSchema :=
  let errors0 := match errors self with None => ∅ | Some e => e end in
  {| errors := Some (error ∪ errors0); result_ := result_ self |}.

Definition set_result (self : _ResponseSchema) (r : BaseModel) : _ResponseSchema :=
  {| errors := errors self; result_ := Some r |}.

Inductive _HandlerResponseEnumType : Type :=
| pydantic_model
| web_response
| another.

(** *** Objects a handler can return *)

Inductive pyclass : Type :=
| HTTPExceptionClass (status_code : Z)   (* a subclass of [HTTPException] *)
| OtherClass (name : string).

Inductive pyobj : Type :=
| OModel (m : BaseModel)
| OResponse (r : nat)             (* a response object, by identity *)
| OValue (v : pyval)
| OClass (c : pyclass)            (* a class object *)
| OInstance (c : pyclass)         (* an instance of a class *)
| OTuple (items : list pyobj).

(** *** Response objects and the heap *)

Record Response : Type := {
  status : Z;
  content_type : string;
  text : option pyval;   (* the JSON document, kept as a tree *)
}.

(** [Response()]. *)
Definition new_Response : Response :=
  {| status := 200; content_type := "application/octet-stream"; text := None |}.

#[global] Instance Response_inhabited : Inhabited Response := populate new_Response.

(** Allocation: the new object gets the next free index. *)
Definition alloc (h : list Response) (c : Response) : nat * list Response :=
  (List.length h, (h ++ [c])%list).

(** *** The handler object and the request *)

(** One entry of [inspect.signature(method).parameters]; [None] is
    [inspect.Parameter.empty]. *)
Record SigParameter : Type := {
  param_name : string;
  param_annotation : option annotation;
}.

(** A handler method: its signature, and what calling it with keyword
    arguments does (it may mutate or create response objects, and raise). *)
Record Method : Type := {
  parameters : list SigParameter;
  invoke : gmap string argument → list Response → result (pyobj * list Response);
}.

(** The attributes a view has under the lower-case method names: handler
    methods (an attribute of another kind under such a name is not
    represented). *)
Record View : Type := {
  attrs : gmap string Method;
}.

Definition getattr (self : View) (name : string) : option Method :=
  attrs self !! name.

Definition hasattr (self : View) (name : string) : bool :=
  bool_decide (is_Some (attrs self !! name)).

(** The request as the transport presents it: [request.method],
    [request.headers] and [request.rel_url.query] (multidicts, as item
    lists), [request.match_info], the bytes of the body, and what
    [json.loads] makes of the text of the body ([None]: it raises
    [JSONDecodeError]). *)
Record Request : Type := {
  req_method : string;
  req_headers : list (string * string);
  req_match_info : gmap string string;
  req_query : list (string * string);
  req_body : string;
  req_json : option pyval;
}.

(** [await request.text()]: the body decoded as UTF-8 (the three content
    types that lead here carry no charset); bytes that are not UTF-8 raise
    [UnicodeDecodeError]. *)
Definition request_text (request : Request) : result string :=
  if utf8_valid (req_body request) then Ok (req_body request)
  else Raise UnicodeDecodeError.

(** [await request.json()]: [json.loads] of [await request.text()]. *)
Definition request_json (request : Request) : result pyval :=
  _ ← request_text request;
  match req_json request with
  | Some v => Ok v
  | None => Raise JSONDecodeError
  end.

(** [CIMultiDict.get(name)]: first item whose key matches, ignoring case. *)
Definition headers_get (hs : list (string * string)) (name : string) : option string :=
  snd <$> List.find (λ kv, String.eqb (lower kv.1) (lower name)) hs.

(** [dict(request.headers)]: every key present, bound to [headers[key]]. *)
Definition dict_of_headers (hs : list (string * string)) : gmap string pyval :=
  list_to_map (omap (λ kv, (λ v, (kv.1, PStr v)) <$> headers_get hs kv.1) hs).

(** [dict(multidict)] for a case-sensitive multidict: the first value wins. *)
Definition dict_of_query (q : list (string * string)) : gmap string pyval :=
  list_to_map (prod_map id PStr <$> q).

(** [aiohttp.hdrs.METH_ALL]. *)
Definition METH_ALL : gset string :=
  {[ "CONNECT"; "HEAD"; "GET"; "DELETE"; "OPTIONS"; "PATCH"; "POST"; "PUT"; "TRACE" ]}.

Definition CONTENT_TYPE : string := "Content-Type".

(** ** Synthetic field errors *)

(** A subclass of pydantic's [PydanticTypeError]: its message template and
    the code [get_exc_type] derives for it (the class name without [Error],
    in lower case). *)
Record PydanticTypeError : Type := {
  msg_template : string;
  code : string;
}.

Definition get_exc_type (exc : PydanticTypeError) : string :=
  "type_error." +:+ code exc.

Definition IntegerError := {| msg_template := "value is not a valid integer"; code := "integer" |}.
Definition StrError := {| msg_template := "str type expected"; code := "str" |}.
Definition FloatError := {| msg_template := "value is not a valid float"; code := "float" |}.
Definition DictError := {| msg_template := "value is not a valid dict"; code := "dict" |}.
Definition BytesError := {| msg_template := "byte type expected"; code := "bytes" |}.
Definition BoolError := {| msg_template := "value could not be parsed to a boolean"; code := "bool" |}.

(** [type('TypeError', (PydanticTypeError,), {'msg_template': err_msg})]. *)
Definition _get_unknown_pydantic_type_error (err_msg : string) : PydanticTypeError :=
  {| msg_template := err_msg; code := "type" |}.

(** [str(cls)] for the classes that can stand as an annotation. *)
Definition type_repr (t : type_id) : string :=
  match t with
  | Builtin Int => "<class 'int'>"
  | Builtin Str => "<class 'str'>"
  | Builtin Float => "<class 'float'>"
  | Builtin Dict => "<class 'dict'>"
  | Builtin Bytes => "<class 'bytes'>"
  | Builtin Bool => "<class 'bool'>"
  | OtherType repr => repr
  end.

Definition _get_pydantic_error_type (type_error_class : type_id) : PydanticTypeError :=
  match type_error_class with
  | Builtin Int => IntegerError
  | Builtin Str => StrError
  | Builtin Float => FloatError
  | Builtin Dict => DictError
  | Builtin Bytes => BytesError
  | Builtin Bool => BoolError
  | OtherType _ =>
      _get_unknown_pydantic_type_error
        ("value is not a " +:+ type_repr type_error_class)
  end.

Definition _gef_pydantic_like_answer_by_class_type_error
    (loc : list loc_item) (type_error_class : type_id) : list ErrorDict :=
  let exc := _get_pydantic_error_type type_error_class in
  [ {| loc := loc; msg := msg_template exc; type := get_exc_type exc |} ].

Definition _gef_pydantic_like_answer_by_custom_message
    (loc : list loc_item) (msg : string) : list ErrorDict :=
  let exc := _get_unknown_pydantic_type_error msg in
  [ {| loc := loc; msg := msg_template exc; type := get_exc_type exc |} ].

(** ** Names of the surfaces *)

Definition _headers_schema_name : string := "headers".
Definition _url_params_schema_name : string := "query_params".
Definition _match_info_schema_name : string := "match_info".
Definition _body_params_schema_name : string := "body".
Definition _response_object_name : string := "response".
Definition _default_response_success_http_code : Z := 200.

Definition _request_supported_params : gset string :=
  {[ _headers_schema_name; _url_params_schema_name;
     _match_info_schema_name; _body_params_schema_name ]}.

(** ** Fetching *)

Definition _request_content_type (request : Request) : option string :=
  headers_get (req_headers request) CONTENT_TYPE.

Definition _fetch_match_info_data (request : Request) : gmap string pyval :=
  PStr <$> req_match_info request.

Definition _fetch_query_params_data (request : Request) : gmap string pyval :=
  dict_of_query (req_query request).

Definition _fetch_body_data (request : Request) : result pyval :=
  match _request_content_type request with
  | None => Raise (MissingContentTypeError "missing Content-Type header")
  | Some ct =>
      if String.eqb ct "application/json" then request_json request
      else if String.eqb ct "text/plain" then
        text ← request_text request; Ok (PStr text)
      else if String.eqb ct "application/x-www-form-urlencoded" then
        request_text ← request_text request;
        let unquotes_text := unquote request_text in
        d ← _parse_qs unquotes_text;
        Ok (PDict (map_to_list d))
      else
        Raise (UnexpectedContentTypeError
                 ("cannot fetch body data. Content-Type '" +:+ ct +:+ "' not allowed here."))
  end.

(** ** Validation *)

(** What a validator hands back: [(value, None)] or [(None, errors)]. *)
Definition validation : Type := option validated * option (list ErrorDict).

(** [if errors:] on an optional list. *)
Definition errors_truthy (errors : option (list ErrorDict)) : bool :=
  match errors with
  | Some (_ :: _) => true
  | _ => false
  end.

(** The name of the first parameter of [BaseModel.__init__]: a keyword
    argument of that name clashes with it, and the call raises
    [TypeError] before any validation. *)
Definition pydantic_self : string := "__pydantic_self__".

(** The schema called with [data] as keyword arguments.  Only
    [ValidationError] is caught; whatever else the call raises goes up.
    Building a [web.Response] from request data is not represented and
    counts as a [TypeError]; so does calling [None]. *)
Definition _validate_pydantic_schema (schema : annotation)
    (data : gmap string pyval) : result validation :=
  match schema with
  | AnnModel cls =>
      if bool_decide (is_Some (data !! pydantic_self)) then Raise TypeError
      else
        match validate cls data with
        | inl result => Ok (Some (VModel result), None)
        | inr ve_errors => Ok (None, Some ve_errors)
        end
  | AnnType t => v ← call_kwargs t data; Ok (Some (VValue v), None)
  | AnnResponse => Raise TypeError
  | AnnNone => Raise TypeError
  end.

Definition _validate_headers (request : Request) (headers_type : annotation)
    : result validation :=
  '(h_result, errors) ←
    _validate_pydantic_schema headers_type (dict_of_headers (req_headers request));
  if errors_truthy errors then Ok (None, errors) else Ok (h_result, None).

Definition _validate_match_info (request : Request) (match_info_type : annotation)
    : result validation :=
  let fetched_match_info_data := _fetch_match_info_data request in
  '(mi_result, errors) ←
    _validate_pydantic_schema match_info_type fetched_match_info_data;
  if errors_truthy errors then Ok (None, errors) else Ok (mi_result, None).

Definition _validate_query_params (request : Request) (query_params_type : annotation)
    : result validation :=
  let fetched_query_params_data := _fetch_query_params_data request in
  '(qp_result, errors) ←
    _validate_pydantic_schema query_params_type fetched_query_params_data;
  if errors_truthy errors then Ok (None, errors) else Ok (qp_result, None).

(** [cast(dict[str, Any], fetched_body_data)] checks nothing; the value is
    then unpacked as keyword arguments by the call of the schema, and that
    needs a mapping: anything else is a [TypeError]. *)
Definition as_kwargs (data : pyval) : result (gmap string pyval) :=
  match data with
  | PDict items => Ok (list_to_map items)
  | _ => Raise TypeError
  end.

(** [body_type(fetched_body_data)] for an annotation that is not a model. *)
Definition call_annotation (body_type : annotation) (arg : pyval) : result pyval :=
  match body_type with
  | AnnType t => call t arg
  | _ => Raise TypeError
  end.

Definition annotation_type_id (a : annotation) : type_id :=
  match a with
  | AnnModel cls => OtherType ("<class '" +:+ model_name cls +:+ "'>")
  | AnnResponse => OtherType "<class 'aiohttp.web_response.Response'>"
  | AnnType t => type_ident t
  | AnnNone => OtherType "None"
  end.

Definition _validate_body_data (request : Request) (body_type : annotation)
    : result validation :=
  let body_loc := [LocStr _body_params_schema_name] in
  match _fetch_body_data request with
  | Raise (MissingContentTypeError m) =>
      Ok (None, Some (_gef_pydantic_like_answer_by_custom_message body_loc m))
  | Raise (UnexpectedContentTypeError m) =>
      Ok (None, Some (_gef_pydantic_like_answer_by_custom_message body_loc m))
  | Raise JSONDecodeError =>
      Ok (None, Some (_gef_pydantic_like_answer_by_custom_message body_loc "body is not a json"))
  | Raise e => Raise e
  | Ok fetched_body_data =>
      match body_type with
      | AnnModel _ =>
          data ← as_kwargs fetched_body_data;
          '(b_result, errors) ← _validate_pydantic_schema body_type data;
          if errors_truthy errors then Ok (None, errors) else Ok (b_result, None)
      | _ =>
          match call_annotation body_type fetched_body_data with
          | Ok b_result => Ok (Some (VValue b_result), None)
          | Raise e =>
              if is_value_or_type_error e then
                Ok (None, Some (_gef_pydantic_like_answer_by_class_type_error
                                  body_loc (annotation_type_id body_type)))
              else Raise e
          end
      end
  end.

(** The [if result: ... else: ...] that follows each validator in
    [_extract_data]. *)
Definition store_validation (name : string) (v : validation)
    (acc : _ExtractedData) : _ExtractedData :=
  match v.1 with
  | Some x =>
      if validated_truthy x then
        {| method_params := <[name := ArgValidated x]> (method_params acc);
           validation_errors := validation_errors acc |}
      else
        {| method_params := method_params acc;
           validation_errors := <[name := v.2]> (validation_errors acc) |}
  | None =>
      {| method_params := method_params acc;
         validation_errors := <[name := v.2]> (validation_errors acc) |}
  end.

(** [if x:] on an attribute of the annotations: set, to a truthy
    object. *)
Definition truthy_annotation (a : option annotation) : option annotation :=
  match a with
  | Some ty => if annotation_truthy ty then Some ty else None
  | None => None
  end.

(** One [if extract_annotations.<surface>:] block. *)
Definition extract_surface (name : string) (declared : option annotation)
    (validator : annotation → result validation)
    (acc : _ExtractedData) : result _ExtractedData :=
  match truthy_annotation declared with
  | Some ty => v ← validator ty; Ok (store_validation name v acc)
  | None => Ok acc
  end.

Definition _extract_data (request : Request)
    (extract_annotations : _ExtractedAnnotations) : result _ExtractedData :=
  let d0 := {| method_params := ∅; validation_errors := ∅ |} in
  d1 ← extract_surface _headers_schema_name (headers extract_annotations)
         (_validate_headers request) d0;
  d2 ← extract_surface _match_info_schema_name (match_info extract_annotations)
         (_validate_match_info request) d1;
  d3 ← extract_surface _url_params_schema_name (query_params extract_annotations)
         (_validate_query_params request) d2;
  extract_surface _body_params_schema_name (body extract_annotations)
    (_validate_body_data request) d3.

(** ** Serialising the envelope *)

(** Whether pydantic's JSON encoder has a rule for every part of a value. *)
Fixpoint json_encodable (v : pyval) : bool :=
  match v with
  | PObject _ => false
  | PList items => forallb json_encodable items
  | PDict items => forallb (λ kv, json_encodable kv.2) items
  | _ => true
  end.

Definition json_of_loc_item (i : loc_item) : pyval :=
  match i with
  | LocStr s => PStr s
  | LocInt n => PInt n
  end.

Definition json_of_ErrorDict (e : ErrorDict) : pyval :=
  PDict [("loc", PList (json_of_loc_item <$> loc e));
         ("msg", PStr (msg e));
         ("type", PStr (type e))].

Definition json_of_errors (errs : gmap string (option (list ErrorDict))) : pyval :=
  PDict (map_to_list
           ((λ slot, match slot with
                     | Some l => PList (json_of_ErrorDict <$> l)
                     | None => PNone
                     end) <$> errs)).

(** [schema.json(by_alias=True)]: the document, or [None] when the encoder
    raises. *)
Definition ResponseSchema_json (schema : _ResponseSchema) : option pyval :=
  let errors_doc := match errors schema with
                    | Some errs => json_of_errors errs
                    | None => PNone
                    end in
  match result_ schema with
  | None => Some (PDict [("errors", errors_doc); ("result", PNone)])
  | Some m =>
      if json_encodable (PDict (model_fields m))
      then Some (PDict [("errors", errors_doc); ("result", PDict (model_fields m))])
      else None
  end.

(** ** Building the response *)

(** [response.set_status(code)], [response.content_type = ct] and
    [response.text = doc]. *)
Definition set_status (c : Response) (code : Z) : Response :=
  {| status := code; content_type := content_type c; text := text c |}.

Definition set_content_type (c : Response) (ct : string) : Response :=
  {| status := status c; content_type := ct; text := text c |}.

Definition set_text (c : Response) (doc : pyval) : Response :=
  {| status := status c; content_type := content_type c; text := Some doc |}.

Definition _return_json_response (response : nat) (schema : _ResponseSchema)
    (status : Z) (h : list Response) : result (nat * list Response) :=
  match ResponseSchema_json schema with
  | None => Raise CannotSerializeResponseError
  | Some handler_response_schema =>
      let c := h !!! response in
      let c := set_content_type c "application/json" in
      let c := set_text c handler_response_schema in
      let c := if negb (status =? 0) then set_status c status else c in
      Ok (response, <[response := c]> h)
  end.

(** [a is b] for a response object [a] of the heap. *)
Definition is_object (r : nat) (o : pyobj) : bool :=
  match o with
  | OResponse r' => Nat.eqb r r'
  | _ => false
  end.

Definition _get_handler_response_type (method_response : pyobj)
    : _HandlerResponseEnumType :=
  match method_response with
  | OModel _ => pydantic_model
  | OResponse _ => web_response
  | OInstance (HTTPExceptionClass _) => web_response  (* [HTTPException] derives from [Response] *)
  | _ => another
  end.

Definition _get_handler_response_http_code (existing_response : option nat)
    (unchecked_http_code : pyobj) (h : list Response) : result Z :=
  let by_indicator :=
    match unchecked_http_code with
    | OValue (PInt n) => Ok n
    | OValue (PBool b) => Ok (Z.b2z b)
    | OClass (HTTPExceptionClass status_code) => Ok status_code
    | _ => Raise UnexpectedHttpCodeError
    end in
  match existing_response with
  | Some r =>
      if negb (status (h !!! r) =? _default_response_success_http_code)
      then Ok (status (h !!! r))
      else by_indicator
  | None => by_indicator
  end.

(** The first block of [_handle_response]: a tuple is unpacked into the
    payload and the status indicator, which is resolved; anything else is
    the payload and keeps the default code. *)
Definition unpack_method_response (method_response : pyobj)
    (annotated_response : option nat) (h : list Response) : result (pyobj * Z) :=
  match method_response with
  | OTuple items =>
      match items with
      | [payload; unchecked_response_http_code] =>
          c ← _get_handler_response_http_code annotated_response
                unchecked_response_http_code h;
          Ok (payload, c)
      | _ => Raise HandlerResultTypeError
      end
  | _ => Ok (method_response, _default_response_success_http_code)
  end.

Definition _handle_response (method_response : pyobj)
    (handler_response_schema : _ResponseSchema)
    (annotated_response : option nat) (h : list Response)
    : result (pyobj * list Response) :=
  '(method_response, response_http_code) ←
    unpack_method_response method_response annotated_response h;
  match _get_handler_response_type method_response, method_response with
  | pydantic_model, OModel m =>
      let handler_response_schema := set_result handler_response_schema m in
      let '(annotated_response, h) :=
        match annotated_response with
        | Some r => (r, h)
        | None => alloc h new_Response
        end in
      '(r, h) ← _return_json_response annotated_response handler_response_schema
                  response_http_code h;
      Ok (OResponse r, h)
  | web_response, _ =>
      match annotated_response with
      | Some r =>
          if negb (is_object r method_response)
          then Raise NotOriginalResponseError
          else Ok (method_response, h)
      | None => Ok (method_response, h)
      end
  | _, _ => Raise UnhandledResponseTypeError
  end.

(** ** Method resolution and annotations *)

Definition _raise_allowed_methods {A} (self : View) (request : Request) : result A :=
  let allowed_methods :=
    filter (λ m, hasattr self (lower m) = true) METH_ALL in
  Raise (HTTPMethodNotAllowed (req_method request) allowed_methods).

Definition _get_handler_method (self : View) (request : Request) : result Method :=
  match getattr self (lower (req_method request)) with
  | None => _raise_allowed_methods self request
  | Some method => Ok method
  end.

Definition no_annotations : _ExtractedAnnotations :=
  {| headers := None; match_info := None; query_params := None;
     body := None; response := None |}.

(** One turn of the loop over the parameters of the signature. *)
Definition _extract_annotations_step (annotations : _ExtractedAnnotations)
    (param : SigParameter) : result _ExtractedAnnotations :=
  let name := param_name param in
  match param_annotation param with
  | None => Raise (ExtractionTypeError (MissingParameterType name))
  | Some a =>
      let '{| headers := hd; match_info := mi; query_params := qp;
              body := bd; response := rs |} := annotations in
      if String.eqb name _headers_schema_name then
        Ok {| headers := Some a; match_info := mi; query_params := qp;
              body := bd; response := rs |}
      else if String.eqb name _match_info_schema_name then
        Ok {| headers := hd; match_info := Some a; query_params := qp;
              body := bd; response := rs |}
      else if String.eqb name _url_params_schema_name then
        Ok {| headers := hd; match_info := mi; query_params := Some a;
              body := bd; response := rs |}
      else if String.eqb name _body_params_schema_name then
        Ok {| headers := hd; match_info := mi; query_params := qp;
              body := Some a; response := rs |}
      else if String.eqb name _response_object_name then
        Ok {| headers := hd; match_info := mi; query_params := qp;
              body := bd; response := Some a |}
      else
        Raise (ExtractionTypeError (UnexpectedParameter name _request_supported_params))
  end.

Fixpoint _extract_annotations_loop (annotations : _ExtractedAnnotations)
    (params : list SigParameter) : result _ExtractedAnnotations :=
  match params with
  | [] => Ok annotations
  | param :: params' =>
      annotations' ← _extract_annotations_step annotations param;
      _extract_annotations_loop annotations' params'
  end.

Definition _extract_annotations (method : Method) : result _ExtractedAnnotations :=
  _extract_annotations_loop no_annotations (parameters method).

(** ** The pipeline *)

(** What one request can change: the response objects, and the record of
    the calls made to the handler method (with their keyword arguments). *)
Record State : Type := {
  heap : list Response;
  invocations : list (gmap string argument);
}.

Definition _handle_incoming_request (self : View) (request : Request)
    (st : State) : result (pyobj * State) :=
  _ ← (if bool_decide (req_method request ∈ METH_ALL) then Ok ()
       else _raise_allowed_methods self request);
  method ← _get_handler_method self request;
  let handler_response_schema := new_ResponseSchema in
  extract_annotations ← _extract_annotations method;
  '(response, h) ←
    match truthy_annotation (response extract_annotations) with
    | Some AnnResponse =>
        let '(r, h) := alloc (heap st) new_Response in Ok (Some r, h)
    | Some _ => Raise WrongAnnotatedWebResponseError
    | None => Ok (None, heap st)
    end;
  extracted ← _extract_data request extract_annotations;
  let validate_errors := validation_errors extracted in
  let method_params :=
    match response with
    | Some r => <[_response_object_name := ArgResponse r]> (method_params extracted)
    | None => method_params extracted
    end in
  if negb (bool_decide (validate_errors = ∅)) then
    let handler_response_schema := set_client_error handler_response_schema validate_errors in
    let '(r, h) := alloc h new_Response in
    '(r, h) ← _return_json_response r handler_response_schema 400 h;
    Ok (OResponse r, {| heap := h; invocations := invocations st |})
  else
    '(method_response, h) ← invoke method method_params h;
    '(out, h) ← _handle_response method_response handler_response_schema response h;
    Ok (out, {| heap := h; invocations := (invocations st ++ [method_params])%list |}).

(** * Vocabulary of the statements *)

(** The values a key has in a list of pairs, in order. *)
Fixpoint values_of (name : string) (pairs : list (string * string)) : list string :=
  match pairs with
  | [] => []
  | (n, v) :: pairs' =>
      if decide (n = name) then v :: values_of name pairs' else values_of name pairs'
  end.

(** [s[0]] of a string with a first character, as a string. *)
Definition first_char (s : string) : string :=
  match str_chars s with
  | c :: _ => c
  | [] => EmptyString
  end.

(** The states the decoder is in between two bytes of a code point: after
    a first byte, and after each continuation byte but the last. *)
Inductive utf8_reached : utf8_pending → Prop :=
| reached_lead (b : ascii) (n l h : nat) :
    utf8_lead b = inr (n, l, h) →
    utf8_reached {| need := n; lo := l; hi := h; seen := String b EmptyString |}
| reached_next (p : utf8_pending) (b : ascii) (k : nat) :
    utf8_reached p →
    need p = S (S k) →
    (lo p <=? nat_of_ascii b)%nat && (nat_of_ascii b <=? hi p)%nat = true →
    utf8_reached {| need := S k; lo := 128; hi := 191;
                    seen := seen p +:+ String b EmptyString |}.

(** The bytes read for the code point under way. *)
Definition pending_seen (pending : option utf8_pending) : string :=
  match pending with
  | Some p => seen p
  | None => EmptyString
  end.

(** What one more value does to the slot of its key. *)
Definition slot_step (slot : option pyval) (value : string) : result pyval :=
  match slot with
  | Some stored => fst_arg ← getitem0 stored; Ok (PList [fst_arg; PStr value])
  | None => Ok (PStr value)
  end.

(** What the slot of a key holds after the loop, by the values of the key. *)
Definition slot_of_values (vs : list string) : option pyval :=
  match vs with
  | [] => None
  | [v] => Some (PStr v)
  | v :: v2 :: vs' => Some (PList [PStr (first_char v); PStr (List.last vs' v2)])
  end.

(** Slots on which [stored[0]] works. *)
Definition indexable (v : pyval) : Prop := ∃ x, getitem0 v = Ok x.

(** The slot of a key through the loop, value by value. *)
Fixpoint slot_fold (slot : option pyval) (vs : list string) : result (option pyval) :=
  match vs with
  | [] => Ok slot
  | v :: vs' => s ← slot_step slot v; slot_fold (Some s) vs'
  end.


(** The four data surfaces, with their names, their annotations and their
    validators. *)
Inductive surface : Type := Headers | MatchInfo | QueryParams | Body.

Definition surface_name (s : surface) : string :=
  match s with
  | Headers => _headers_schema_name
  | MatchInfo => _match_info_schema_name
  | QueryParams => _url_params_schema_name
  | Body => _body_params_schema_name
  end.

Definition declared (ann : _ExtractedAnnotations) (s : surface) : option annotation :=
  truthy_annotation
    match s with
    | Headers => headers ann
    | MatchInfo => match_info ann
    | QueryParams => query_params ann
    | Body => body ann
    end.

Definition validate_surface (request : Request) (s : surface)
    : annotation → result validation :=
  match s with
  | Headers => _validate_headers request
  | MatchInfo => _validate_match_info request
  | QueryParams => _validate_query_params request
  | Body => _validate_body_data request
  end.

(** The two slots a surface has after extraction: its binding in the
    parameter mapping and its entry in the error mapping. *)
Definition slots (name : string) (extracted : _ExtractedData)
    : option argument * option (option (list ErrorDict)) :=
  (method_params extracted !! name, validation_errors extracted !! name).

(** The slots the outcome of a validator leads to: a truthy value is bound
    and leaves no error entry; anything else leaves no binding and an error
    entry holding the second component. *)
Definition slots_of_validation (v : validation)
    : option argument * option (option (list ErrorDict)) :=
  match v.1 with
  | Some x =>
      if validated_truthy x then (Some (ArgValidated x), None) else (None, Some v.2)
  | None => (None, Some v.2)
  end.

(** [isinstance(x, int)]; [bool] is a subclass of [int]. *)
Definition is_int (x : pyobj) : bool :=
  match x with
  | OValue (PInt _) | OValue (PBool _) => true
  | _ => false
  end.

(** [x] is a class and [issubclass(x, HTTPException)]. *)
Definition is_http_exception_class (x : pyobj) : bool :=
  match x with
  | OClass (HTTPExceptionClass _) => true
  | _ => false
  end.

(** No annotated response, or one whose status is still the default. *)
Definition no_status_override (annotated_response : option nat) (h : list Response) : Prop :=
  match annotated_response with
  | Some r => status (h !!! r) = _default_response_success_http_code
  | None => True
  end.

(** The annotation of a surface is absent or a pydantic model class, as
    the fields of [_ExtractedAnnotations] are declared. *)
Definition model_or_undeclared (a : option annotation) : Prop :=
  match a with
  | Some (AnnModel _) | None => True
  | Some _ => False
  end.

(** The [response] parameter is absent or annotated with [web.Response]. *)
Definition response_annotation_ok (a : option annotation) : Prop :=
  match a with
  | Some AnnResponse | None => True
  | Some _ => False
  end.

(** The cell of an automatically generated JSON response. *)
Definition json_response (code : Z) (doc : pyval) : Response :=
  {| status := code; content_type := "application/json"; text := Some doc |}.

(** The envelope of a client error. *)
Definition error_envelope (errs : gmap string (option (list ErrorDict))) : _ResponseSchema :=
  {| errors := Some errs; result_ := None |}.

(** ** Sample handlers and requests *)

Definition empty_state : State := {| heap := []; invocations := [] |}.

Definition sample_request (method : string) (hs : list (string * string))
    (body_text : string) (body_json : option pyval) : Request :=
  {| req_method := method; req_headers := hs; req_match_info := ∅;
     req_query := []; req_body := body_text; req_json := body_json |}.

(** One byte that no UTF-8 text contains. *)
Definition invalid_utf8 : string := String (ascii_of_nat 255) EmptyString.

Definition form_request (body_text : string) : Request :=
  sample_request "POST" [("Content-Type", "application/x-www-form-urlencoded")]
    body_text None.

(** A headers model with one required field, [X-Token]. *)
Definition TokenHeaders : ModelClass :=
  {| model_name := "TokenHeaders";
     validate := λ data,
       match data !! "X-Token" with
       | Some v => inl {| model_fields := [("X-Token", v)] |}
       | None => inr [ {| loc := [LocStr "X-Token"]; msg := "field required";
                          type := "value_error.missing" |} ]
       end |}.

(** A body model with one required field, [name]. *)
Definition NamedBody : ModelClass :=
  {| model_name := "NamedBody";
     validate := λ data,
       match data !! "name" with
       | Some v => inl {| model_fields := [("name", v)] |}
       | None => inr [ {| loc := [LocStr "name"]; msg := "field required";
                          type := "value_error.missing" |} ]
       end |}.

(** The builtin [bool]: [bool(x)] is the truth value of [x]; it takes no
    keyword argument. *)
Definition py_bool : PlainType :=
  {| type_ident := Builtin Bool;
     call := λ v, Ok (PBool (truthy v));
     call_kwargs := λ kw, if decide (kw = ∅) then Ok (PBool false) else Raise TypeError |}.

(** The builtin [int] on the values of this model.  For a string: spaces
    around, an optional sign, decimal digits, single underscores between
    digits.  (Python also accepts non-ASCII digits and spaces; they are not
    recognised here.) *)
Definition is_space (c : ascii) : bool :=
  let n := nat_of_ascii c in
  ((9 <=? n)%nat && (n <=? 13)%nat) || ((28 <=? n)%nat && (n <=? 32)%nat).

Fixpoint lstrip (s : string) : string :=
  match s with
  | String c s' => if is_space c then lstrip s' else s
  | EmptyString => EmptyString
  end.

Fixpoint rstrip (s : string) : string :=
  match s with
  | String c s' =>
      match rstrip s' with
      | EmptyString => if is_space c then EmptyString else String c EmptyString
      | r => String c r
      end
  | EmptyString => EmptyString
  end.

Definition digit_value (c : ascii) : option Z :=
  let n := nat_of_ascii c in
  if (48 <=? n)%nat && (n <=? 57)%nat then Some (Z.of_nat n - 48) else None.

Fixpoint digits_value (acc : Z) (after_digit : bool) (s : string) : option Z :=
  match s with
  | EmptyString => if after_digit then Some acc else None
  | String c s' =>
      match digit_value c with
      | Some d => digits_value (10 * acc + d) true s'
      | None =>
          if Ascii.eqb c "_"%char && after_digit then digits_value acc false s'
          else None
      end
  end.

Definition int_of_str (s : string) : option Z :=
  match rstrip (lstrip s) with
  | String "+"%char r => digits_value 0 false r
  | String "-"%char r => Z.opp <$> digits_value 0 false r
  | t => digits_value 0 false t
  end.

Definition py_int : PlainType :=
  {| type_ident := Builtin Int;
     call := λ v,
       match v with
       | PInt n => Ok (PInt n)
       | PBool b => Ok (PInt (Z.b2z b))
       | PStr s => match int_of_str s with
                   | Some n => Ok (PInt n)
                   | None => Raise ValueError
                   end
       | _ => Raise TypeError
       end;
     call_kwargs := λ kw, if decide (kw = ∅) then Ok (PInt 0) else Raise TypeError |}.

Definition sample_model : BaseModel := {| model_fields := [("ok", PBool true)] |}.

Definition annotated (name : string) (a : annotation) : SigParameter :=
  {| param_name := name; param_annotation := Some a |}.

(** [async def post(self, headers: TokenHeaders, body: NamedBody)]. *)
Definition post_headers_body : Method :=
  {| parameters := [annotated "headers" (AnnModel TokenHeaders);
                    annotated "body" (AnnModel NamedBody)];
     invoke := λ kw h, Ok (OModel sample_model, h) |}.

(** [async def post(self, body: T)] for a plain type [T]. *)
Definition post_plain_body (t : PlainType) : Method :=
  {| parameters := [annotated "body" (AnnType t)];
     invoke := λ kw h, Ok (OModel sample_model, h) |}.

(** A handler with an injected response: it sets the status of the
    response it was given to [code] and returns [ret]. *)
Definition get_with_response (code : Z) (ret : pyobj) : Method :=
  {| parameters := [annotated "response" AnnResponse];
     invoke := λ kw h,
       match kw !! "response" with
       | Some (ArgResponse r) => Ok (ret, <[r := set_status (h !!! r) code]> h)
       | _ => Raise TypeError
       end |}.

(** [async def get(self)] returning [ret]. *)
Definition get_returning (ret : pyobj) : Method :=
  {| parameters := []; invoke := λ kw h, Ok (ret, h) |}.

Definition view_with (name : string) (m : Method) : View :=
  {| attrs := {[ name := m ]} |}.

Definition HTTPNotFound : pyclass := HTTPExceptionClass 404.

(** ** Vocabulary for the signature *)

(** The five reserved parameter names. *)
Definition reserved_names : list string :=
  [_headers_schema_name; _match_info_schema_name; _url_params_schema_name;
   _body_params_schema_name; _response_object_name].

(** The slot of the annotations that a parameter name fills. *)
Definition slot (ann : _ExtractedAnnotations) (name : string) : option annotation :=
  if String.eqb name _headers_schema_name then headers ann
  else if String.eqb name _match_info_schema_name then match_info ann
  else if String.eqb name _url_params_schema_name then query_params ann
  else if String.eqb name _body_params_schema_name then body ann
  else if String.eqb name _response_object_name then response ann
  else None.

(** A parameter the extraction accepts: annotated, under a reserved name. *)
Definition accepted (p : SigParameter) : Prop :=
  is_Some (param_annotation p) ∧ param_name p ∈ reserved_names.

(** The keyword arguments the handler method gets for an extraction
    without errors: the bound values, and the injected response (the object
    allocated first, at the next free index) when one is declared. *)
Definition call_arguments (ann : _ExtractedAnnotations) (extracted : _ExtractedData)
    (h : list Response) : gmap string argument :=
  match response ann with
  | Some _ => <[_response_object_name := ArgResponse (List.length h)]> (method_params extracted)
  | None => method_params extracted
  end.

(** The letter e with an acute accent: one character, two bytes. *)
Definition e_acute : string :=
  String (ascii_of_nat 195) (String (ascii_of_nat 169) EmptyString).

(** The shape of a value of a parsed form body: a non-empty string, or a
    list of two strings whose first is one character (one code point)
    long. *)
Definition form_value (v : pyval) : Prop :=
  (∃ s, v = PStr s ∧ s ≠ EmptyString) ∨
  (∃ c s, v = PList [PStr c; PStr s] ∧ str_len c = 1%nat ∧ s ≠ EmptyString).

(** A value that is not a dict. *)
Definition not_a_mapping (v : pyval) : Prop :=
  match v with
  | PDict _ => False
  | _ => True
  end.

(** [async def get(self, headers: TokenHeaders, user_id: int)]: [user_id]
    is not a reserved name. *)
Definition get_with_user_id : Method :=
  {| parameters := [annotated "headers" (AnnModel TokenHeaders);
                    annotated "user_id" (AnnType py_int)];
     invoke := λ kw h, Ok (OModel sample_model, h) |}.



(** The response objects the handler method finds: those of the state,
    and the injected one when [response] is declared. *)
Definition heap_at_call (ann : _ExtractedAnnotations) (h : list Response) : list Response :=
  match response ann with
  | Some _ => (h ++ [new_Response])%list
  | None => h
  end.

(** The annotations of [post_headers_body], and a request it accepts. *)
Definition headers_body_annotations : _ExtractedAnnotations :=
  {| headers := Some (AnnModel TokenHeaders); match_info := None;
     query_params := None; body := Some (AnnModel NamedBody); response := None |}.

Definition valid_post_request : Request :=
  sample_request "POST" [("X-Token", "t"); ("Content-Type", "application/json")]
    EmptyString (Some (PDict [("name", PStr "n")])).

(** The annotated response handed to [_handle_response]. *)
Definition injected (ann : _ExtractedAnnotations) (h : list Response) : option nat :=
  match response ann with
  | Some _ => Some (List.length h)
  | None => None
  end.

(** * Properties *)

(** ** Strings and their characters *)

Section utf8.

Implicit Types (s : string) (b : ascii) (p : utf8_pending)
  (pending : option utf8_pending) (t : utf8_token).

Lemma append_nil s : EmptyString +:+ s = s.
Proof. done. Qed.

Lemma append_cons b s1 s2 : String b s1 +:+ s2 = String b (s1 +:+ s2).
Proof. done. Qed.

Lemma append_assoc s1 s2 s3 : (s1 +:+ s2) +:+ s3 = s1 +:+ (s2 +:+ s3).
Proof.
  induction s1 as [|c s1 IH]; [done|]. by rewrite !append_cons, IH.
Qed.

Lemma append_length s1 s2 :
  String.length (s1 +:+ s2) = (String.length s1 + String.length s2)%nat.
Proof.
  induction s1 as [|c s1 IH]; [done|]. rewrite append_cons. cbn. by rewrite IH.
Qed.

Lemma append_nonempty_r s b : s +:+ String b EmptyString ≠ EmptyString.
Proof. by destruct s. Qed.

Lemma utf8_lead_token b t :
  utf8_lead b = inl t →
  token_bytes t = String b EmptyString ∧
  utf8_tokens None (String b EmptyString) = [t].
Proof.
  intros Hlead. split; [|by cbn; rewrite Hlead].
  unfold utf8_lead in Hlead.
  repeat match type of Hlead with
         | (if ?c then _ else _) = _ => destruct c
         end; by simplify_eq.
Qed.

(** The decoder emits something as soon as there is a byte to read or a
    code point under way. *)
Lemma utf8_tokens_nonempty s pending :
  is_Some pending ∨ s ≠ EmptyString → utf8_tokens pending s ≠ [].
Proof.
  revert pending. induction s as [|b s IH]; intros pending Hsome.
  - destruct pending as [p|]; [done|]. destruct Hsome as [[? ?]|?]; done.
  - cbn. assert (∀ p0, utf8_tokens (Some p0) s ≠ []) as Hp.
    { intros p0. apply IH. left. by eexists. }
    destruct pending as [p|].
    + destruct (_ && _).
      * destruct (need p) as [|[|k]]; [done..|apply Hp].
      * done.
    + destruct (utf8_lead b) as [t|[[n l] h]]; [done|apply Hp].
Qed.

(** The tokens cut the bytes: nothing is lost, nothing is added. *)
Lemma utf8_tokens_bytes s pending :
  concat_strings (token_bytes <$> utf8_tokens pending s) = pending_seen pending +:+ s.
Proof.
  revert pending. induction s as [|b s IH]; intros pending.
  - by destruct pending.
  - assert (concat_strings
              (token_bytes <$>
                 match utf8_lead b with
                 | inl tok => tok :: utf8_tokens None s
                 | inr (n, l, h) =>
                     utf8_tokens (Some {| need := n; lo := l; hi := h;
                                          seen := String b EmptyString |}) s
                 end) = String b s) as Hstart.
    { destruct (utf8_lead b) as [t|[[n l] h]] eqn:Hlead.
      - cbn. rewrite IH. by destruct (utf8_lead_token b t Hlead) as [-> _].
      - by rewrite IH. }
    cbn [utf8_tokens]. destruct pending as [p|]; [|exact Hstart].
    cbn [pending_seen]. destruct (_ && _).
    + destruct (need p) as [|[|k]];
        [cbn; rewrite IH; cbn; by rewrite append_assoc..|].
      rewrite IH. cbn. by rewrite append_assoc.
    + cbn [fmap list_fmap concat_strings token_bytes].
      change (concat_strings (list_fmap _ _ token_bytes ?l))
        with (concat_strings (token_bytes <$> l)).
      by rewrite Hstart.
Qed.

Lemma utf8_tokens_bytes_nonempty s pending :
  (∀ p, pending = Some p → seen p ≠ EmptyString) →
  Forall (λ t, token_bytes t ≠ EmptyString) (utf8_tokens pending s).
Proof.
  revert pending. induction s as [|b s IH]; intros pending Hseen.
  - destruct pending as [p|]; [|constructor].
    constructor; [by apply Hseen|constructor].
  - assert (Forall (λ t, token_bytes t ≠ EmptyString)
              match utf8_lead b with
              | inl tok => tok :: utf8_tokens None s
              | inr (n, l, h) =>
                  utf8_tokens (Some {| need := n; lo := l; hi := h;
                                       seen := String b EmptyString |}) s
              end) as Hstart.
    { destruct (utf8_lead b) as [t|[[n l] h]] eqn:Hlead.
      - constructor; [|by apply IH].
        by destruct (utf8_lead_token b t Hlead) as [-> _].
      - apply IH. by intros p [= <-]. }
    cbn [utf8_tokens]. destruct pending as [p|]; [|exact Hstart].
    destruct (_ && _).
    + destruct (need p) as [|[|k]].
      * constructor; [apply append_nonempty_r|by apply IH].
      * constructor; [apply append_nonempty_r|by apply IH].
      * apply IH. intros p0 [= <-]. apply append_nonempty_r.
    + constructor; [by apply Hseen|exact Hstart].
Qed.

Lemma token_char_nonempty t : token_bytes t ≠ EmptyString → token_char t ≠ EmptyString.
Proof. by destruct t. Qed.

(** Reading on from the first byte of the code point under way is reading
    from the state reached. *)
Lemma utf8_tokens_resume p s :
  utf8_reached p → utf8_tokens None (seen p +:+ s) = utf8_tokens (Some p) s.
Proof.
  intros Hp. revert s. induction Hp as [b n l h Hlead|p b k Hp IH Hneed Hrange];
    intros s; cbn [seen].
  - rewrite append_cons, append_nil. cbn [utf8_tokens]. by rewrite Hlead.
  - rewrite append_assoc, append_cons, append_nil, IH.
    cbn [utf8_tokens]. by rewrite Hrange, Hneed.
Qed.

(** A well-formed token is one character by itself. *)
Lemma utf8_tokens_scalar s pending :
  (∀ p, pending = Some p → utf8_reached p) →
  Forall (λ t, is_scalar t = true → utf8_tokens None (token_bytes t) = [t])
         (utf8_tokens pending s).
Proof.
  revert pending. induction s as [|b s IH]; intros pending Hreach.
  - destruct pending as [p|]; repeat constructor; done.
  - assert (Forall (λ t, is_scalar t = true → utf8_tokens None (token_bytes t) = [t])
              match utf8_lead b with
              | inl tok => tok :: utf8_tokens None s
              | inr (n, l, h) =>
                  utf8_tokens (Some {| need := n; lo := l; hi := h;
                                       seen := String b EmptyString |}) s
              end) as Hstart.
    { destruct (utf8_lead b) as [t|[[n l] h]] eqn:Hlead.
      - constructor; [|by apply IH].
        intros _. by destruct (utf8_lead_token b t Hlead) as [-> ->].
      - apply IH. intros p [= <-]. by constructor. }
    cbn [utf8_tokens]. destruct pending as [p|]; [|exact Hstart].
    pose proof (Hreach p eq_refl) as Hp.
    destruct (_ && _) eqn:Hrange.
    + assert (utf8_tokens None (seen p +:+ String b EmptyString)
              = utf8_tokens (Some p) (String b EmptyString)) as Hres
        by (by apply utf8_tokens_resume).
      cbn [utf8_tokens] in Hres. rewrite Hrange in Hres.
      destruct (need p) as [|[|k]] eqn:Hneed.
      * constructor; [by intros _|by apply IH].
      * constructor; [by intros _|by apply IH].
      * apply IH. intros p0 [= <-]. by apply (reached_next p b k).
    + constructor; [done|exact Hstart].
Qed.

(** Every character of a string is one character long. *)
Lemma str_chars_single s : Forall (λ c, str_len c = 1%nat) (str_chars s).
Proof.
  unfold str_chars. apply Forall_fmap.
  eapply Forall_impl; [by apply (utf8_tokens_scalar s None)|].
  intros [bytes|bytes] Ht; cbn; [|done].
  unfold str_len, str_chars. cbn in Ht. by rewrite Ht.
Qed.

Lemma str_chars_nonempty s : s ≠ EmptyString → str_chars s ≠ [].
Proof.
  intros Hs Hnil. apply fmap_nil_inv in Hnil.
  apply (utf8_tokens_nonempty s None); [by right|done].
Qed.

Lemma getitem0_str s :
  s ≠ EmptyString → getitem0 (PStr s) = Ok (PStr (first_char s)).
Proof.
  intros Hs. unfold getitem0, first_char.
  pose proof (str_chars_nonempty s Hs). by destruct (str_chars s).
Qed.

(** The first character of a non-empty string is a single character. *)
Lemma first_char_single s : s ≠ EmptyString → str_len (first_char s) = 1%nat.
Proof.
  intros Hs. unfold first_char.
  pose proof (str_chars_nonempty s Hs) as Hne.
  pose proof (str_chars_single s) as Hall.
  destruct (str_chars s) as [|c l]; [done|]. by apply Forall_cons_1 in Hall as [? _].
Qed.

(** The first character of a string of two characters or more is not the
    whole string. *)
Lemma first_char_proper s : (1 < str_len s)%nat → first_char s ≠ s.
Proof.
  unfold str_len, first_char, str_chars. intros Hlen.
  pose proof (utf8_tokens_bytes s None) as Hbytes.
  pose proof (utf8_tokens_bytes_nonempty s None) as Hne.
  destruct (utf8_tokens None s) as [|t1 [|t2 l]] eqn:Htok; cbn in Hlen; [lia..|].
  cbn in Hbytes.
  assert (token_bytes t2 ≠ EmptyString) as Ht2.
  { specialize (Hne ltac:(done)).
    apply Forall_cons_1 in Hne as [_ Hne]. by apply Forall_cons_1 in Hne as [? _]. }
  cbn. destruct t1 as [bytes|bytes]; cbn.
  - intros ->. cbn in Hbytes. apply (f_equal String.length) in Hbytes.
    rewrite !append_length in Hbytes. destruct (token_bytes t2); [done|].
    cbn in Hbytes. lia.
  - intros <-. vm_compute in Htok. discriminate Htok.
Qed.

Lemma concat_strings_nonempty (l : list string) :
  l ≠ [] → Forall (λ c, c ≠ EmptyString) l → concat_strings l ≠ EmptyString.
Proof.
  destruct l as [|c l]; [done|]. intros _ Hall.
  apply Forall_cons_1 in Hall as [Hc _]. cbn. by destruct c.
Qed.

Lemma utf8_decode_replace_nonempty s :
  s ≠ EmptyString → utf8_decode_replace s ≠ EmptyString.
Proof.
  intros Hs. unfold utf8_decode_replace. apply concat_strings_nonempty.
  - by apply str_chars_nonempty.
  - unfold str_chars. apply Forall_fmap.
    eapply Forall_impl; [by apply (utf8_tokens_bytes_nonempty s None)|].
    intros t. apply token_char_nonempty.
Qed.

End utf8.

(** ** Form bodies: [_parse_qs] *)

Section parse_qs.

Implicit Types (d : gmap string pyval) (pairs : list (string * string)).

Lemma _parse_qs_step_slot d name value :
  _parse_qs_step d (name, value) =
    (v ← slot_step (d !! name) value; Ok (<[name := v]> d)).
Proof.
  unfold _parse_qs_step, slot_step.
  destruct (d !! name) as [stored|]; [|done].
  by destruct (getitem0 stored).
Qed.

Lemma indexable_str v : v ≠ EmptyString → indexable (PStr v).
Proof. intros Hv. eexists. by apply getitem0_str. Qed.

Lemma indexable_pair x y : indexable (PList [x; y]).
Proof. by eexists. Qed.

Lemma last_cons_default {A} (a : A) (l : list A) (x y : A) :
  List.last (a :: l) x = List.last (a :: l) y.
Proof. revert a. induction l as [|b l IH]; intros a; [done|]. apply (IH b). Qed.

Lemma slot_fold_pair x y vs :
  slot_fold (Some (PList [x; PStr y])) vs = Ok (Some (PList [x; PStr (List.last vs y)])).
Proof.
  revert y. induction vs as [|v vs IH]; intros y; [done|].
  cbn. rewrite IH. destruct vs as [|a vs]; [done|].
by rewrite (last_cons_default a vs v y).
Qed.

Lemma slot_fold_values vs :
  Forall (λ v, v ≠ EmptyString) vs → slot_fold None vs = Ok (slot_of_values vs).
Proof.
  destruct vs as [|v [|v2 vs]]; [done..|].
  intros Hne. apply Forall_cons_1 in Hne as [Hv _].
  change (slot_fold None (v :: v2 :: vs))
    with (s ← (fst_arg ← getitem0 (PStr v); Ok (PList [fst_arg; PStr v2]));
          slot_fold (Some s) vs).
  rewrite (getitem0_str v Hv). apply slot_fold_pair.
Qed.

(** The loop never raises on non-blank values, and treats every key on
    its own. *)
Lemma _parse_qs_loop_lookup pairs : ∀ d,
  Forall (λ nv, nv.2 ≠ EmptyString) pairs →
  map_Forall (λ _ v, indexable v) d →
  ∃ d', _parse_qs_loop d pairs = Ok d' ∧
        ∀ name, slot_fold (d !! name) (values_of name pairs) = Ok (d' !! name).
Proof.
  induction pairs as [|[n v] pairs IH]; intros d Hne Hd.
  - by exists d.
  - apply Forall_cons_1 in Hne as [Hv Hne]. cbn in Hv.
    cbn [_parse_qs_loop]. rewrite _parse_qs_step_slot.
    assert (∃ s, slot_step (d !! n) v = Ok s ∧ indexable s) as (s & Hs & Hgood).
    { unfold slot_step. destruct (d !! n) as [stored|] eqn:Hlk.
      - destruct (Hd _ _ Hlk) as [x ->]. eexists. split; [done|apply indexable_pair].
      - eexists. split; [done|by apply indexable_str]. }
    rewrite Hs. cbn.
    destruct (IH (<[n := s]> d) Hne) as (d' & Hloop & Hlk').
    { by apply map_Forall_insert_2. }
    exists d'. split; [done|]. intros name. cbn [values_of].
    case_decide as Hn.
    + subst n. cbn [slot_fold]. rewrite Hs. cbn.
      rewrite <- Hlk'. by rewrite lookup_insert_eq.
    + rewrite <- Hlk'. by rewrite lookup_insert_ne.
Qed.

Lemma plus_to_space_nonempty s : s ≠ EmptyString → plus_to_space s ≠ EmptyString.
Proof. by destruct s. Qed.

Lemma unquote_to_bytes_nonempty s :
  s ≠ EmptyString → unquote_to_bytes s ≠ EmptyString.
Proof.
  destruct s as [|c s]; [done|]. intros _. cbn.
  destruct (Ascii.eqb c "%"); [|done].
  destruct s as [|h [|l rest]]; [done..|].
  by destruct (hex_digit h), (hex_digit l).
Qed.

Lemma unquote_nonempty s : s ≠ EmptyString → unquote s ≠ EmptyString.
Proof.
  intros Hs. by apply utf8_decode_replace_nonempty, unquote_to_bytes_nonempty.
Qed.

(** [parse_qsl] keeps no blank value. *)
Lemma parse_qsl_values_nonempty qs : Forall (λ nv, nv.2 ≠ EmptyString) (parse_qsl qs).
Proof.
  apply Forall_forall. intros [n v] Hin.
  apply list_elem_of_omap in Hin as (field & _ & Hfield).
  unfold parse_qsl_field in Hfield.
  destruct (split_eq field) as [[n0 v0]|]; [|done].
  destruct (String.eqb_spec v0 EmptyString) as [|Hv0]; [done|].
  injection Hfield as <- <-. cbn.
  by apply unquote_nonempty, plus_to_space_nonempty.
Qed.

Lemma values_of_nonempty name pairs :
  Forall (λ nv, nv.2 ≠ EmptyString) pairs → Forall (λ v, v ≠ EmptyString) (values_of name pairs).
Proof.
  induction pairs as [|[n v] pairs IH]; intros Hne; [constructor|].
  apply Forall_cons_1 in Hne as [Hv Hne]. cbn.
  case_decide; [constructor; [done|]|]; by apply IH.
Qed.

(** [_parse_qs] returns for every string, and the slot of each key is
    determined by the values of that key alone. *)
Lemma _parse_qs_lookup qs :
  ∃ d, _parse_qs qs = Ok d ∧
       ∀ name, d !! name = slot_of_values (values_of name (parse_qsl qs)).
Proof.
  destruct (_parse_qs_loop_lookup (parse_qsl qs) ∅
              (parse_qsl_values_nonempty qs)) as (d & Hd & Hlk).
  { apply map_Forall_empty. }
  exists d. split; [done|]. intros name.
  specialize (Hlk name). rewrite lookup_empty in Hlk.
  rewrite slot_fold_values in Hlk.
  - by injection Hlk as <-.
  - apply values_of_nonempty, parse_qsl_values_nonempty.
Qed.

End parse_qs.

Lemma _fetch_body_data_form request :
  _request_content_type request = Some "application/x-www-form-urlencoded" →
  _fetch_body_data request =
    (text ← request_text request;
     d ← _parse_qs (unquote text);
     Ok (PDict (map_to_list d))).
Proof. unfold _fetch_body_data. by intros ->. Qed.

(** A form body that is not UTF-8 is not parsed: the decoding error of
    [request.text()] leaves [_fetch_body_data]. *)
Lemma _fetch_body_data_form_undecodable request :
  _request_content_type request = Some "application/x-www-form-urlencoded" →
  utf8_valid (req_body request) = false →
  _fetch_body_data request = Raise UnicodeDecodeError.
Proof.
  intros Hct Hbody. rewrite (_fetch_body_data_form _ Hct).
  unfold request_text. by rewrite Hbody.
Qed.

(** A decoded form body always parses, and the slot of each key is
    determined by the values of that key. *)
Lemma _fetch_body_data_form_lookup request text :
  _request_content_type request = Some "application/x-www-form-urlencoded" →
  request_text request = Ok text →
  ∃ d : gmap string pyval,
    _fetch_body_data request = Ok (PDict (map_to_list d)) ∧
    ∀ name,
      d !! name = slot_of_values (values_of name (parse_qsl (unquote text))).
Proof.
  intros Hct Htext. rewrite (_fetch_body_data_form _ Hct), Htext.
  destruct (_parse_qs_lookup (unquote text)) as (d & Hd & Hlk).
  exists d. split; [|done]. cbn. by rewrite Hd.
Qed.

(** C3, as the code has it: a form body whose text decodes always parses;
    a key that occurs once is bound to its value as a scalar string; a key
    that occurs twice or more is bound to a two-element list made of
    element 0 of the first value (its first character, a code point) and
    of the value of the LAST occurrence: every later occurrence overwrites
    the second element, none is dropped. *)
Theorem C3_repeated_key_keeps_last (request : Request) (text : string) :
  _request_content_type request = Some "application/x-www-form-urlencoded" →
  request_text request = Ok text →
  ∃ d : gmap string pyval,
    _fetch_body_data request = Ok (PDict (map_to_list d)) ∧
    ∀ name : string,
      match values_of name (parse_qsl (unquote text)) with
      | [] => d !! name = None
      | [v] => d !! name = Some (PStr v)
      | v :: v2 :: later =>
          d !! name = Some (PList [PStr (first_char v); PStr (List.last later v2)]) ∧
          str_len (first_char v) = 1%nat
      end.
Proof.
  intros Hct Htext.
  destruct (_fetch_body_data_form_lookup request text Hct Htext) as (d & Hd & Hlk).
  exists d. split; [done|]. intros name. rewrite Hlk.
  pose proof (values_of_nonempty name _ (parse_qsl_values_nonempty (unquote text)))
    as Hne.
  destruct (values_of name _) as [|v [|v2 later]]; [done..|].
  split; [done|]. apply first_char_single.
  by apply Forall_cons_1 in Hne as [? _].
Qed.

Lemma C3_repeated_key_keeps_last_witness :
  ∃ d : gmap string pyval,
    _fetch_body_data (form_request "a=%C3%A9x&a=2&a=3") = Ok (PDict (map_to_list d)) ∧
    d !! "a" = Some (PList [PStr e_acute; PStr "3"]) ∧
    d !! "b" = None.
Proof.
  destruct (C3_repeated_key_keeps_last (form_request "a=%C3%A9x&a=2&a=3")
              "a=%C3%A9x&a=2&a=3" eq_refl eq_refl)
    as (d & Hd & Hlk).
  exists d. split; [exact Hd|].
  split; [exact (proj1 (Hlk "a"))|exact (Hlk "b")].
Defined.

(** C3, as stated, fails: ['a=1&a=2&a=3'] does not parse to
    [{a: ["1","2"]}] but to [{a: ["1","3"]}]; the third value is kept and
    the second one is lost. *)
Lemma C3_third_value_is_not_dropped :
  _fetch_body_data (form_request "a=1&a=2&a=3")
    = Ok (PDict [("a", PList [PStr "1"; PStr "3"])]) ∧
  _fetch_body_data (form_request "a=1&a=2&a=3")
    ≠ Ok (PDict [("a", PList [PStr "1"; PStr "2"])]).
Proof. split; [by vm_compute|]. vm_compute. discriminate. Qed.

(** C10: in a form body, a key that occurs exactly twice and whose first
    value has more than one character is bound to the two-element list of
    the first character of the first value and of the second value: the
    stored scalar is indexed at position 0, not kept whole.  Characters are
    code points, as [len] and indexing count them. *)
Theorem C10_first_value_cut_to_first_char (request : Request)
    (text name v1 v2 : string) :
  _request_content_type request = Some "application/x-www-form-urlencoded" →
  request_text request = Ok text →
  values_of name (parse_qsl (unquote text)) = [v1; v2] →
  (1 < str_len v1)%nat →
  ∃ d : gmap string pyval,
    _fetch_body_data request = Ok (PDict (map_to_list d)) ∧
    d !! name = Some (PList [PStr (first_char v1); PStr v2]) ∧
    str_len (first_char v1) = 1%nat ∧
    first_char v1 ≠ v1 ∧
    d !! name ≠ Some (PList [PStr v1; PStr v2]).
Proof.
  intros Hct Htext Hvs Hlen.
  destruct (_fetch_body_data_form_lookup request text Hct Htext) as (d & Hd & Hlk).
  specialize (Hlk name). rewrite Hvs in Hlk. cbn [slot_of_values List.last] in Hlk.
  pose proof (first_char_proper v1 Hlen) as Hproper.
  exists d. split; [done|]. split; [done|]. split.
  - apply first_char_single. intros ->. vm_compute in Hlen. lia.
  - split; [done|]. rewrite Hlk. congruence.
Qed.

Lemma C10_first_value_cut_to_first_char_witness :
  (∃ d : gmap string pyval,
     _fetch_body_data (form_request "a=10&a=2") = Ok (PDict (map_to_list d)) ∧
     d !! "a" = Some (PList [PStr "1"; PStr "2"]) ∧
     d !! "a" ≠ Some (PList [PStr "10"; PStr "2"])) ∧
  (∃ d : gmap string pyval,
     _fetch_body_data (form_request "a=%C3%A9x&a=2") = Ok (PDict (map_to_list d)) ∧
     d !! "a" = Some (PList [PStr e_acute; PStr "2"]) ∧
     d !! "a" ≠ Some (PList [PStr (e_acute +:+ "x"); PStr "2"])).
Proof.
  split.
  - destruct (C10_first_value_cut_to_first_char (form_request "a=10&a=2")
                "a=10&a=2" "a" "10" "2" eq_refl eq_refl eq_refl
                ltac:(vm_compute; lia))
      as (d & Hd & Hlk & _ & _ & Hne).
    exists d. split; [exact Hd|]. split; [exact Hlk|exact Hne].
  - destruct (C10_first_value_cut_to_first_char (form_request "a=%C3%A9x&a=2")
                "a=%C3%A9x&a=2" "a" (e_acute +:+ "x") "2" eq_refl eq_refl eq_refl
                ltac:(vm_compute; lia))
      as (d & Hd & Hlk & _ & _ & Hne).
    exists d. split; [exact Hd|]. split; [exact Hlk|exact Hne].
Defined.

(** ** Response normalisation *)

Section response.

Implicit Types (h : list Response) (schema : _ResponseSchema)
  (annotated_response : option nat).

(** After [_return_json_response] the response carries the document and
    the JSON content type; its status is [code], unless [code] is 0. *)
Lemma _return_json_response_ok r schema code h doc :
  ResponseSchema_json schema = Some doc →
  (r < List.length h)%nat →
  ∃ h', _return_json_response r schema code h = Ok (r, h') ∧
        List.length h' = List.length h ∧
        h' !!! r = json_response (if decide (code = 0) then status (h !!! r) else code) doc.
Proof.
  intros Hdoc Hr. unfold _return_json_response. rewrite Hdoc.
  eexists. split; [done|]. split; [by rewrite length_insert|].
  rewrite list_lookup_total_insert_eq by done.
  case_decide as Hc.
  - subst code. done.
  - destruct (Z.eqb_spec code 0); done.
Qed.

Lemma set_result_json schema m :
  json_encodable (PDict (model_fields m)) = true →
  ∃ doc, ResponseSchema_json (set_result schema m) = Some doc.
Proof. intros Hm. unfold ResponseSchema_json. cbn [result_ set_result]. rewrite Hm. by eexists. Qed.

(** A model payload: the envelope is written to the annotated response, or
    to a new one, with the resolved code. *)
Lemma _handle_response_model method_response schema annotated_response h m code :
  unpack_method_response method_response annotated_response h = Ok (OModel m, code) →
  json_encodable (PDict (model_fields m)) = true →
  (∀ r, annotated_response = Some r → (r < List.length h)%nat) →
  code ≠ 0 →
  ∃ r h', _handle_response method_response schema annotated_response h = Ok (OResponse r, h') ∧
          r = default (List.length h) annotated_response ∧
          status (h' !!! r) = code.
Proof.
  intros Hunpack Hm Hvalid Hcode.
  unfold _handle_response. rewrite Hunpack. cbn.
  destruct (set_result_json schema m Hm) as [doc Hdoc].
  destruct annotated_response as [r|]; cbn.
  - destruct (_return_json_response_ok r _ code h doc Hdoc) as (h' & -> & _ & Hcell);
      [by apply Hvalid|].
    exists r, h'. cbn. repeat split. rewrite Hcell. by case_decide.
  - destruct (_return_json_response_ok (List.length h) _ code (h ++ [new_Response]) doc Hdoc)
      as (h' & -> & _ & Hcell); [rewrite length_app; cbn; lia|].
    exists (List.length h), h'. cbn. repeat split. rewrite Hcell. by case_decide.
Qed.

Lemma unpack_method_response_tuple payload indicator annotated_response h :
  unpack_method_response (OTuple [payload; indicator]) annotated_response h =
    (c ← _get_handler_response_http_code annotated_response indicator h; Ok (payload, c)).
Proof. done. Qed.

Lemma _get_handler_response_http_code_override r indicator h :
  status (h !!! r) ≠ _default_response_success_http_code →
  _get_handler_response_http_code (Some r) indicator h = Ok (status (h !!! r)).
Proof.
  intros Hs. unfold _get_handler_response_http_code.
  by destruct (Z.eqb_spec (status (h !!! r)) _default_response_success_http_code).
Qed.

Lemma _get_handler_response_http_code_indicator annotated_response indicator h :
  no_status_override annotated_response h →
  _get_handler_response_http_code annotated_response indicator h =
    _get_handler_response_http_code None indicator h.
Proof.
  destruct annotated_response as [r|]; [|done]. cbn. intros Hs.
  unfold _get_handler_response_http_code. rewrite Hs. done.
Qed.

(** C4: for a 2-tuple [(payload, indicator)] the status code is resolved
    by precedence: the status of the annotated response when it exists and is
    not 200; otherwise the indicator when it is a plain integer; otherwise
    the status code of the indicator when it is an HTTP-exception class;
    otherwise the fatal "unexpected http code" error.  The resolved code is
    the one of the pipeline: a failure is propagated, and for a model payload
    it is the status of the emitted response. *)
Theorem C4_status_code_precedence (annotated_response : option nat)
    (h : list Response) (payload indicator : pyobj) (schema : _ResponseSchema) :
  let resolved := _get_handler_response_http_code annotated_response indicator h in
  let emitted := _handle_response (OTuple [payload; indicator]) schema annotated_response h in
  (∀ r, annotated_response = Some r → status (h !!! r) ≠ 200 →
        resolved = Ok (status (h !!! r))) ∧
  (no_status_override annotated_response h →
     (∀ n, indicator = OValue (PInt n) → resolved = Ok n) ∧
     (∀ c, indicator = OClass (HTTPExceptionClass c) → resolved = Ok c) ∧
     (is_int indicator = false → is_http_exception_class indicator = false →
        resolved = Raise UnexpectedHttpCodeError)) ∧
  (∀ e, resolved = Raise e → emitted = Raise e) ∧
  (∀ code m, resolved = Ok code → payload = OModel m → code ≠ 0 →
     json_encodable (PDict (model_fields m)) = true →
     (∀ r, annotated_response = Some r → (r < List.length h)%nat) →
     ∃ r h', emitted = Ok (OResponse r, h') ∧ status (h' !!! r) = code).
Proof.
  cbn zeta. split; [|split; [|split]].
  - intros r -> Hs. by apply _get_handler_response_http_code_override.
  - intros Hno. rewrite (_get_handler_response_http_code_indicator _ _ _ Hno).
    split; [by intros n ->|]. split; [by intros c ->|].
    intros Hint Hcls. by destruct indicator as [| |[]|[]| |].
  - intros e He. unfold _handle_response.
    rewrite unpack_method_response_tuple, He. done.
  - intros code m Hres -> Hcode Hm Hvalid.
    destruct (_handle_response_model (OTuple [OModel m; indicator]) schema
                annotated_response h m code) as (r & h' & Hout & _ & Hst); [|done..|].
    + rewrite unpack_method_response_tuple, Hres. done.
    + by exists r, h'.
Qed.

(** [(model, 201)] with no annotated response gives 201; with an annotated
    response whose status was set to 403, it gives 403. *)
Lemma C4_status_code_precedence_witness :
  (∃ r h', _handle_response (OTuple [OModel sample_model; OValue (PInt 201)])
             new_ResponseSchema None [] = Ok (OResponse r, h') ∧
           status (h' !!! r) = 201) ∧
  (∃ r h', _handle_response (OTuple [OModel sample_model; OValue (PInt 201)])
             new_ResponseSchema (Some 0%nat) [set_status new_Response 403]
             = Ok (OResponse r, h') ∧
           status (h' !!! r) = 403).
Proof.
  split.
  - destruct (C4_status_code_precedence None [] (OModel sample_model)
                (OValue (PInt 201)) new_ResponseSchema) as (_ & _ & _ & Hmodel).
    apply (Hmodel 201 sample_model); [reflexivity|reflexivity|lia|reflexivity|].
    intros r Hr. discriminate Hr.
  - destruct (C4_status_code_precedence (Some 0%nat) [set_status new_Response 403]
                (OModel sample_model) (OValue (PInt 201)) new_ResponseSchema)
      as (Hover & _ & _ & Hmodel).
    apply (Hmodel 403 sample_model); [|reflexivity|lia|reflexivity|].
    + apply (Hover 0%nat); [reflexivity|]. cbn. lia.
    + intros r Hr. injection Hr as <-. cbn. lia.
Defined.

(** A bare model always leaves the emitted response with status 200,
    whatever status the annotated response had when the handler returned. *)
Lemma _handle_response_bare_model schema annotated_response h m :
  json_encodable (PDict (model_fields m)) = true →
  (∀ r, annotated_response = Some r → (r < List.length h)%nat) →
  ∃ r h', _handle_response (OModel m) schema annotated_response h = Ok (OResponse r, h') ∧
          r = default (List.length h) annotated_response ∧
          status (h' !!! r) = 200.
Proof.
  intros Hm Hvalid.
  by apply (_handle_response_model (OModel m) schema annotated_response h m 200).
Qed.

(** C5 (defect of the code): a handler that received an injected response,
    set its status to 403 and returned a bare model gets status 200: the
    default code is written over the status the handler had set.  The
    specification expects 403. *)
Theorem C5_bare_model_loses_mutated_status :
  let view := view_with "get" (get_with_response 403 (OModel sample_model)) in
  invoke (get_with_response 403 (OModel sample_model))
         {[ "response" := ArgResponse 0 ]} [new_Response]
    = Ok (OModel sample_model, [set_status new_Response 403]) ∧
  ∃ doc,
    _handle_incoming_request view (sample_request "GET" [] EmptyString None) empty_state
      = Ok (OResponse 0,
            {| heap := [json_response 200 doc];
               invocations := [ {[ "response" := ArgResponse 0 ]} ] |}).
Proof. cbn zeta. split; [by vm_compute|]. eexists. by vm_compute. Qed.

(** C6: when a response was injected and the payload is a transport
    response, the "not original response" error is raised if and only if
    the payload is not the injected object itself; when it is, the payload
    is returned unchanged (and so is every response object). *)
Theorem C6_original_response_identity (r : nat) (h : list Response)
    (schema : _ResponseSchema) (method_response payload : pyobj) (code : Z) :
  unpack_method_response method_response (Some r) h = Ok (payload, code) →
  _get_handler_response_type payload = web_response →
  (_handle_response method_response schema (Some r) h = Raise NotOriginalResponseError
     ↔ payload ≠ OResponse r) ∧
  (payload = OResponse r →
     _handle_response method_response schema (Some r) h = Ok (payload, h)).
Proof.
  intros Hunpack Hty. unfold _handle_response. rewrite Hunpack. cbn.
  destruct payload as [m|r'|v|c|[code'|name]|items]; try discriminate Hty; cbn.
  - destruct (Nat.eqb_spec r r') as [->|Hne]; cbn.
    + split; [|done]. split; [done|]. intros Hneq. by destruct Hneq.
    + split; [|congruence]. split; [congruence|done].
  - split; [done|]. discriminate.
Qed.

Lemma C6_original_response_identity_witness :
  _handle_response (OResponse 0) new_ResponseSchema (Some 0%nat) [new_Response]
    = Ok (OResponse 0, [new_Response]) ∧
  _handle_response (OTuple [OResponse 1; OValue (PInt 201)]) new_ResponseSchema
    (Some 0%nat) [new_Response; new_Response] = Raise NotOriginalResponseError.
Proof.
  split.
  - apply (C6_original_response_identity 0 [new_Response] new_ResponseSchema
             (OResponse 0) (OResponse 0) 200 eq_refl eq_refl). reflexivity.
  - apply (C6_original_response_identity 0 [new_Response; new_Response]
             new_ResponseSchema (OTuple [OResponse 1; OValue (PInt 201)])
             (OResponse 1) 201 eq_refl eq_refl). discriminate.
Defined.

(** C9, as the code has it: with no annotated response, or one whose
    status is still 200, a status indicator that is an instance of a class
    (of an HTTP-exception class in particular) and not the class itself
    raises the fatal "unexpected http code" error; the status code of the
    instance is not used.  When the annotated response has another status,
    that status is the resolved code and the indicator is not looked at. *)
Theorem C9_exception_instance_indicator (annotated_response : option nat)
    (h : list Response) (payload : pyobj) (c : pyclass) (schema : _ResponseSchema) :
  (no_status_override annotated_response h →
     _handle_response (OTuple [payload; OInstance c]) schema annotated_response h
       = Raise UnexpectedHttpCodeError) ∧
  (∀ r, annotated_response = Some r → status (h !!! r) ≠ 200 →
     _get_handler_response_http_code annotated_response (OInstance c) h
       = Ok (status (h !!! r))).
Proof.
  split.
  - intros Hno. unfold _handle_response.
    rewrite unpack_method_response_tuple,
      (_get_handler_response_http_code_indicator _ _ _ Hno).
    done.
  - intros r -> Hs. by apply _get_handler_response_http_code_override.
Qed.

Lemma C9_exception_instance_indicator_witness :
  _handle_response (OTuple [OModel sample_model; OInstance HTTPNotFound])
    new_ResponseSchema None [] = Raise UnexpectedHttpCodeError ∧
  _get_handler_response_http_code (Some 0%nat) (OInstance HTTPNotFound)
    [set_status new_Response 403] = Ok 403.
Proof.
  destruct (C9_exception_instance_indicator None [] (OModel sample_model)
              HTTPNotFound new_ResponseSchema) as [Hraise _].
  destruct (C9_exception_instance_indicator (Some 0%nat) [set_status new_Response 403]
              (OModel sample_model) HTTPNotFound new_ResponseSchema) as [_ Hover].
  split; [apply Hraise; exact I|].
  apply (Hover 0%nat eq_refl). cbn. lia.
Defined.

(** C9, as stated, fails: a handler that set the status of its injected
    response to 403 and returned [(model, HTTPNotFound())] gets a response
    with status 403; no "unexpected http code" error is raised. *)
Lemma C9_no_error_when_status_overridden :
  let view := view_with "get"
    (get_with_response 403 (OTuple [OModel sample_model; OInstance HTTPNotFound])) in
  let out := _handle_incoming_request view (sample_request "GET" [] EmptyString None) empty_state in
  out ≠ Raise UnexpectedHttpCodeError ∧
  ∃ st', out = Ok (OResponse 0, st') ∧ status (heap st' !!! 0%nat) = 403.
Proof. cbn zeta. split; [by vm_compute|]. eexists. split; by vm_compute. Qed.

End response.

(** ** Method resolution *)

Lemma elem_of_allowed_methods (self : View) (m : string) :
  m ∈ filter (λ m, hasattr self (lower m) = true) METH_ALL
  ↔ m ∈ METH_ALL ∧ is_Some (getattr self (lower m)).
Proof.
  rewrite elem_of_filter. unfold hasattr, getattr.
  rewrite bool_decide_eq_true. tauto.
Qed.

(** C7: a request whose method is not one of the recognised tokens, or is
    one but has no attribute of that name (in lower case) on the view, ends
    in "method not allowed" (HTTP 405), and the methods it lists are exactly
    the recognised tokens that have such an attribute. *)
Theorem C7_method_not_allowed (self : View) (request : Request) (st : State) :
  req_method request ∉ METH_ALL ∨ getattr self (lower (req_method request)) = None →
  ∃ allowed_methods : gset string,
    _handle_incoming_request self request st
      = Raise (HTTPMethodNotAllowed (req_method request) allowed_methods) ∧
    exn_status_code (HTTPMethodNotAllowed (req_method request) allowed_methods) = 405 ∧
    ∀ m, m ∈ allowed_methods ↔ m ∈ METH_ALL ∧ is_Some (getattr self (lower m)).
Proof.
  intros Hcase.
  exists (filter (λ m, hasattr self (lower m) = true) METH_ALL).
  split; [|split; [done|apply elem_of_allowed_methods]].
  unfold _handle_incoming_request.
  destruct (decide (req_method request ∈ METH_ALL)) as [Hin|Hout].
  - rewrite bool_decide_eq_true_2 by done. cbn.
    destruct Hcase as [Hout|Hnone]; [done|].
    unfold _get_handler_method. rewrite Hnone. done.
  - rewrite bool_decide_eq_false_2 by done. done.
Qed.

Lemma C7_method_not_allowed_witness :
  ∃ allowed_methods : gset string,
    _handle_incoming_request
      (view_with "get" (get_returning (OModel sample_model)))
      (sample_request "PUT" [] EmptyString None) empty_state
      = Raise (HTTPMethodNotAllowed "PUT" allowed_methods) ∧
    "GET" ∈ allowed_methods ∧ "PUT" ∉ allowed_methods.
Proof.
  destruct (C7_method_not_allowed
              (view_with "get" (get_returning (OModel sample_model)))
              (sample_request "PUT" [] EmptyString None) empty_state)
    as (allowed & Hout & _ & Hallowed).
  { right. reflexivity. }
  exists allowed. split; [exact Hout|]. split.
  - apply Hallowed. split; [by vm_compute|]. by eexists.
  - intros Hin. apply Hallowed in Hin as [_ [m Hm]]. discriminate Hm.
Defined.

(** ** Extraction and the early exit *)

Section extraction.

Implicit Types (request : Request) (ann : _ExtractedAnnotations)
  (acc : _ExtractedData) (v : validation).

#[local] Arguments _return_json_response : simpl never.
#[local] Arguments set_client_error : simpl never.

(** A model class called with keyword arguments validates them, unless
    one of them is named as the first parameter of its constructor. *)
Lemma _validate_pydantic_schema_model cls data :
  _validate_pydantic_schema (AnnModel cls) data =
    if bool_decide (is_Some (data !! pydantic_self)) then Raise TypeError
    else Ok match validate cls data with
            | inl result => (Some (VModel result), None)
            | inr ve_errors => (None, Some ve_errors)
            end.
Proof. cbn. case_bool_decide; [done|]. by destruct (validate cls data). Qed.

(** A surface annotated with a model class is validated to the end, or
    stops with [TypeError]. *)
Lemma extract_surface_model name (a : option annotation) data
    (validator : annotation → result validation) acc :
  (∀ ty, validator ty =
           ('(x, errors) ← _validate_pydantic_schema ty data;
            if errors_truthy errors then Ok (None, errors) else Ok (x, None))) →
  model_or_undeclared a →
  (∃ acc', extract_surface name a validator acc = Ok acc') ∨
  extract_surface name a validator acc = Raise TypeError.
Proof.
  intros Hvalidator.
  destruct a as [[cls| |t|]|]; try done; intros _; [|left; by eexists].
  unfold extract_surface. cbn [truthy_annotation annotation_truthy].
  rewrite Hvalidator, _validate_pydantic_schema_model.
  case_bool_decide; [by right|left].
  destruct (validate cls data) as [m|errs]; cbn; [by eexists|].
  destruct errs; by eexists.
Qed.

(** When the validators of the other declared surfaces return, extraction
    reaches the body, and ends with what the body validator gave. *)
Lemma _extract_data_body request ann body_type v :
  (∀ s ty, s ≠ Body → declared ann s = Some ty →
           ∃ v', validate_surface request s ty = Ok v') →
  declared ann Body = Some body_type →
  _validate_body_data request body_type = Ok v →
  ∃ acc, _extract_data request ann = Ok (store_validation _body_params_schema_name v acc).
Proof.
  intros Hother Hbody Hv. unfold _extract_data, extract_surface.
  unfold declared in Hother, Hbody.
  pose proof (Hother Headers) as Hh.
  pose proof (Hother MatchInfo) as Hmi.
  pose proof (Hother QueryParams) as Hqp.
  cbn [validate_surface] in Hh, Hmi, Hqp.
  destruct (truthy_annotation (headers ann)) as [ty|].
  { destruct (Hh ty) as [v1 ->]; [done..|]. cbn [mbind result_bind].
    destruct (truthy_annotation (match_info ann)) as [ty2|].
    { destruct (Hmi ty2) as [v2 ->]; [done..|]. cbn [mbind result_bind].
      destruct (truthy_annotation (query_params ann)) as [ty3|].
      { destruct (Hqp ty3) as [v3 ->]; [done..|]. cbn [mbind result_bind].
        rewrite Hbody, Hv. by eexists. }
      cbn [mbind result_bind]. rewrite Hbody, Hv. by eexists. }
    cbn [mbind result_bind].
    destruct (truthy_annotation (query_params ann)) as [ty3|].
    { destruct (Hqp ty3) as [v3 ->]; [done..|]. cbn [mbind result_bind].
      rewrite Hbody, Hv. by eexists. }
    cbn [mbind result_bind]. rewrite Hbody, Hv. by eexists. }
  cbn [mbind result_bind].
  destruct (truthy_annotation (match_info ann)) as [ty2|].
  { destruct (Hmi ty2) as [v2 ->]; [done..|]. cbn [mbind result_bind].
    destruct (truthy_annotation (query_params ann)) as [ty3|].
    { destruct (Hqp ty3) as [v3 ->]; [done..|]. cbn [mbind result_bind].
      rewrite Hbody, Hv. by eexists. }
    cbn [mbind result_bind]. rewrite Hbody, Hv. by eexists. }
  cbn [mbind result_bind].
  destruct (truthy_annotation (query_params ann)) as [ty3|].
  { destruct (Hqp ty3) as [v3 ->]; [done..|]. cbn [mbind result_bind].
    rewrite Hbody, Hv. by eexists. }
  cbn [mbind result_bind]. rewrite Hbody, Hv. by eexists.
Qed.

Lemma slots_store_validation name v acc :
  slots name acc = (None, None) →
  slots name (store_validation name v acc) = slots_of_validation v.
Proof.
  unfold slots, store_validation, slots_of_validation.
  intros [= Hp He]. destruct v as [[x|] e]; cbn.
  - destruct (validated_truthy x); cbn; rewrite lookup_insert_eq; congruence.
  - rewrite lookup_insert_eq. congruence.
Qed.

Lemma slots_store_validation_ne name name' v acc :
  name ≠ name' →
  slots name (store_validation name' v acc) = slots name acc.
Proof.
  unfold slots, store_validation. intros Hne.
  destruct v as [[x|] e]; cbn; [destruct (validated_truthy x); cbn|];
    by rewrite lookup_insert_ne.
Qed.

Lemma extract_surface_inv name a validator acc acc' :
  extract_surface name a validator acc = Ok acc' →
  match truthy_annotation a with
  | Some ty => ∃ v, validator ty = Ok v ∧ acc' = store_validation name v acc
  | None => acc' = acc
  end.
Proof.
  unfold extract_surface. destruct (truthy_annotation a) as [ty|]; [|congruence].
  destruct (validator ty) as [v|]; [|done]. cbn. intros [= <-]. by exists v.
Qed.

Lemma extract_surface_slots name a validator acc acc' :
  extract_surface name a validator acc = Ok acc' →
  slots name acc = (None, None) →
  match truthy_annotation a with
  | Some ty => ∃ v, validator ty = Ok v ∧ slots name acc' = slots_of_validation v
  | None => slots name acc' = (None, None)
  end.
Proof.
  intros Hx Hfree. apply extract_surface_inv in Hx.
  destruct (truthy_annotation a) as [ty|]; [|by subst].
  destruct Hx as (v & Hv & ->). exists v. split; [done|].
  by apply slots_store_validation.
Qed.

Lemma extract_surface_slots_ne name name' a validator acc acc' :
  extract_surface name' a validator acc = Ok acc' →
  name ≠ name' →
  slots name acc' = slots name acc.
Proof.
  intros Hx Hne. apply extract_surface_inv in Hx.
  destruct (truthy_annotation a) as [ty|]; [|by subst].
  destruct Hx as (v & _ & ->). by apply slots_store_validation_ne.
Qed.

(** Extraction, when it completes, has run the validator of every declared
    surface and stored its outcome under the name of the surface; an
    undeclared surface leaves nothing. *)
Lemma _extract_data_stores_every_surface request ann extracted (s : surface) :
  _extract_data request ann = Ok extracted →
  match declared ann s with
  | Some ty => ∃ v, validate_surface request s ty = Ok v ∧
                    slots (surface_name s) extracted = slots_of_validation v
  | None => slots (surface_name s) extracted = (None, None)
  end.
Proof.
  unfold _extract_data. intros Hdata.
  destruct (extract_surface _headers_schema_name _ _ _) as [d1|] eqn:H1; [|done].
  cbn in Hdata.
  destruct (extract_surface _match_info_schema_name _ _ _) as [d2|] eqn:H2; [|done].
  cbn in Hdata.
  destruct (extract_surface _url_params_schema_name _ _ _) as [d3|] eqn:H3; [|done].
  cbn in Hdata. rename Hdata into H4.
  destruct s; cbn [declared surface_name validate_surface].
  - rewrite (extract_surface_slots_ne _ _ _ _ _ _ H4) by done.
    rewrite (extract_surface_slots_ne _ _ _ _ _ _ H3) by done.
    rewrite (extract_surface_slots_ne _ _ _ _ _ _ H2) by done.
    by apply (extract_surface_slots _ _ _ _ _ H1).
  - rewrite (extract_surface_slots_ne _ _ _ _ _ _ H4) by done.
    rewrite (extract_surface_slots_ne _ _ _ _ _ _ H3) by done.
    apply (extract_surface_slots _ _ _ _ _ H2).
    by rewrite (extract_surface_slots_ne _ _ _ _ _ _ H1).
  - rewrite (extract_surface_slots_ne _ _ _ _ _ _ H4) by done.
    apply (extract_surface_slots _ _ _ _ _ H3).
    rewrite (extract_surface_slots_ne _ _ _ _ _ _ H2) by done.
    by rewrite (extract_surface_slots_ne _ _ _ _ _ _ H1).
  - apply (extract_surface_slots _ _ _ _ _ H4).
    rewrite (extract_surface_slots_ne _ _ _ _ _ _ H3) by done.
    rewrite (extract_surface_slots_ne _ _ _ _ _ _ H2) by done.
    by rewrite (extract_surface_slots_ne _ _ _ _ _ _ H1).
Qed.

Lemma store_validation_errors name errors acc :
  validation_errors (store_validation name (None, errors) acc) !! name = Some errors.
Proof. cbn. apply lookup_insert_eq. Qed.

(** The early exit: when extraction ends with a non-empty error mapping,
    the handler method is not called and a new response is returned, with
    status 400 and the envelope of the errors (no result) as its document. *)
Lemma validation_errors_early_exit (self : View) request (st : State)
    (method : Method) ann (extracted : _ExtractedData) :
  req_method request ∈ METH_ALL →
  getattr self (lower (req_method request)) = Some method →
  _extract_annotations method = Ok ann →
  response_annotation_ok (response ann) →
  _extract_data request ann = Ok extracted →
  validation_errors extracted ≠ ∅ →
  ∃ (r : nat) (h' : list Response) (doc : pyval),
    _handle_incoming_request self request st
      = Ok (OResponse r, {| heap := h'; invocations := invocations st |}) ∧
    ResponseSchema_json (error_envelope (validation_errors extracted)) = Some doc ∧
    h' !!! r = json_response 400 doc.
Proof.
  intros Hin Hattr Hann Hresp Hdata Herrs.
  unfold _handle_incoming_request.
  rewrite bool_decide_eq_true_2 by done. cbn.
  unfold _get_handler_method. rewrite Hattr. cbn. rewrite Hann. cbn.
  assert (set_client_error new_ResponseSchema (validation_errors extracted)
          = error_envelope (validation_errors extracted)) as Henv.
  { unfold set_client_error, error_envelope, new_ResponseSchema, errors, result_.
    by rewrite (right_id_L ∅ (∪)). }
  assert (∃ doc, ResponseSchema_json (error_envelope (validation_errors extracted))
                 = Some doc) as [doc Hdoc] by (by eexists).
  assert (∀ h0 : list Response,
    ∃ h', _return_json_response (List.length h0)
            (error_envelope (validation_errors extracted)) 400 (h0 ++ [new_Response])
          = Ok (List.length h0, h') ∧ h' !!! List.length h0 = json_response 400 doc)
    as Hret.
  { intros h0.
    destruct (_return_json_response_ok (List.length h0) _ 400 (h0 ++ [new_Response])
                doc Hdoc) as (h' & Hok & _ & Hcell); [rewrite length_app; cbn; lia|].
    exists h'. split; [done|]. rewrite Hcell. by case_decide. }
  destruct (response ann) as [[cls| |t|]|]; try done; cbn; rewrite Hdata; cbn;
    rewrite bool_decide_eq_false_2 by done; cbn; rewrite Henv.
  - destruct (Hret (heap st ++ [new_Response])%list) as (h' & -> & Hcell). cbn.
    by exists (List.length (heap st ++ [new_Response])%list), h', doc.
  - destruct (Hret (heap st)) as (h' & -> & Hcell). cbn.
    by exists (List.length (heap st)), h', doc.
Qed.

(** What holds of the early exit whenever extraction completes: a declared
    surface whose validator returned errors has them under its name in the
    envelope of the 400 response, and the handler method is not called. *)
Lemma failing_surface_is_reported (self : View) request (st : State)
    (method : Method) ann (extracted : _ExtractedData) (s : surface)
    (ty : annotation) (errs : list ErrorDict) :
  req_method request ∈ METH_ALL →
  getattr self (lower (req_method request)) = Some method →
  _extract_annotations method = Ok ann →
  response_annotation_ok (response ann) →
  _extract_data request ann = Ok extracted →
  declared ann s = Some ty →
  validate_surface request s ty = Ok (None, Some errs) →
  validation_errors extracted !! surface_name s = Some (Some errs) ∧
  ∃ (r : nat) (h' : list Response) (doc : pyval),
    _handle_incoming_request self request st
      = Ok (OResponse r, {| heap := h'; invocations := invocations st |}) ∧
    ResponseSchema_json (error_envelope (validation_errors extracted)) = Some doc ∧
    h' !!! r = json_response 400 doc.
Proof.
  intros Hin Hattr Hann Hresp Hdata Hdecl Hv.
  pose proof (_extract_data_stores_every_surface request ann extracted s Hdata) as Hs.
  rewrite Hdecl in Hs. destruct Hs as (v & Hv' & Hslots).
  rewrite Hv in Hv'. injection Hv' as <-.
  injection Hslots as _ Hlk. split; [exact Hlk|].
  apply (validation_errors_early_exit self request st method ann extracted);
    try done.
  intros Hempty. rewrite Hempty, lookup_empty in Hlk. discriminate Hlk.
Qed.

(** The three failures of fetching the body that the body validator
    turns into a field error. *)
Lemma _validate_body_data_fetch_error request body_type (m : string) :
  (_request_content_type request = None ∧ m = "missing Content-Type header")
  ∨ (∃ ct, _request_content_type request = Some ct ∧
           ct ≠ "application/json" ∧ ct ≠ "text/plain" ∧
           ct ≠ "application/x-www-form-urlencoded" ∧
           m = "cannot fetch body data. Content-Type '" +:+ ct +:+ "' not allowed here.")
  ∨ (_request_content_type request = Some "application/json" ∧
     utf8_valid (req_body request) = true ∧
     req_json request = None ∧ m = "body is not a json") →
  _validate_body_data request body_type
    = Ok (None, Some [ {| loc := [LocStr "body"]; msg := m; type := "type_error.type" |} ]).
Proof.
  unfold _validate_body_data, _fetch_body_data, request_json, request_text.
  intros [[-> ->]|[(ct & -> & Hj & Ht & Hf & ->)|(-> & -> & -> & ->)]]; [done| |done].
  apply String.eqb_neq in Hj, Ht, Hf. rewrite Hj, Ht, Hf. done.
Qed.

(** C8 (defect of the code): an [application/json] body that is not UTF-8
    does not get the field error "body is not a json" and the status 400.
    [request.json()] decodes the body before it parses it, the decoding
    raises [UnicodeDecodeError], which is not among the three exceptions
    the body validator catches, and the pipeline ends with that exception:
    a server-side failure.  The specification expects every body that
    fails to parse to be answered with status 400 and the error
    envelope. *)
Theorem C8_undecodable_json_body_is_not_a_400 :
  let view := view_with "post" post_headers_body in
  let request := sample_request "POST"
                   [("X-Token", "t"); ("Content-Type", "application/json")]
                   invalid_utf8 None in
  _validate_headers request (AnnModel TokenHeaders)
    = Ok (Some (VModel {| model_fields := [("X-Token", PStr "t")] |}), None) ∧
  request_json request = Raise UnicodeDecodeError ∧
  _fetch_body_data request = Raise UnicodeDecodeError ∧
  _validate_body_data request (AnnModel NamedBody) = Raise UnicodeDecodeError ∧
  _handle_incoming_request view request empty_state = Raise UnicodeDecodeError ∧
  exn_status_code UnicodeDecodeError = 500.
Proof. cbn zeta. repeat split; by vm_compute. Qed.

(** C1 (defect of the code): a request whose headers fail validation and
    whose [text/plain] body meets a body parameter annotated with a model
    class does not get the 400 response: unpacking the body text as keyword
    arguments raises [TypeError], which nothing catches, and the pipeline
    ends with that exception.  The specification expects status 400 and an
    envelope with the errors of the headers. *)
Theorem C1_uncaught_type_error_instead_of_400 :
  let view := view_with "post" post_headers_body in
  let request := sample_request "POST" [("Content-Type", "text/plain")] "hello" None in
  _validate_headers request (AnnModel TokenHeaders)
    = Ok (None, Some [ {| loc := [LocStr "X-Token"]; msg := "field required";
                          type := "value_error.missing" |} ]) ∧
  _fetch_body_data request = Ok (PStr "hello") ∧
  _validate_body_data request (AnnModel NamedBody) = Raise TypeError ∧
  _handle_incoming_request view request empty_state = Raise TypeError.
Proof. cbn zeta. repeat split; by vm_compute. Qed.

(** What the truth test of [_extract_data] does to a validated value that
    is falsy: it is not bound, and the slot of the surface in the error
    mapping receives the [None] that came with it. *)
Lemma store_validation_falsy name (x : validated) acc :
  validated_truthy x = false →
  method_params (store_validation name (Some x, None) acc) = method_params acc ∧
  validation_errors (store_validation name (Some x, None) acc) !! name = Some None.
Proof.
  intros Hx. unfold store_validation. cbn. rewrite Hx. cbn.
  split; [done|apply lookup_insert_eq].
Qed.

(** C2 (defect of the code): for [body: int] and a [text/plain] body [0],
    the body validates to the integer 0, and after extraction the body
    surface has neither a bound value nor a list of field errors: the
    parameter mapping has no [body], and the error mapping binds [body] to
    [None].  The request is answered with status 400 and
    [{"errors": {"body": null}, "result": null}], without calling the
    handler.  The specification expects the value 0 to be
    bound. *)
Theorem C2_falsy_body_is_neither_bound_nor_an_error :
  let view := view_with "post" (post_plain_body py_int) in
  let request := sample_request "POST" [("Content-Type", "text/plain")] "0" None in
  let ann := {| headers := None; match_info := None; query_params := None;
                body := Some (AnnType py_int); response := None |} in
  _extract_annotations (post_plain_body py_int) = Ok ann ∧
  _validate_body_data request (AnnType py_int) = Ok (Some (VValue (PInt 0)), None) ∧
  (∃ extracted, _extract_data request ann = Ok extracted ∧
                method_params extracted !! "body" = None ∧
                validation_errors extracted !! "body" = Some None) ∧
  _handle_incoming_request view request empty_state
    = Ok (OResponse 0,
          {| heap := [json_response 400
                        (PDict [("errors", PDict [("body", PNone)]); ("result", PNone)])];
             invocations := [] |}).
Proof.
  cbn zeta. split; [reflexivity|]. split; [by vm_compute|]. split; [|by vm_compute].
  eexists. split; [by vm_compute|]. split; by vm_compute.
Qed.

End extraction.

(** ** The signature of the handler method *)

Section signature.

Implicit Types (ann acc : _ExtractedAnnotations) (p : SigParameter)
  (params : list SigParameter).

(** An accepted parameter fills the slot of its name and no other. *)
Lemma _extract_annotations_step_accepted acc p :
  accepted p →
  ∃ a acc', param_annotation p = Some a ∧
            _extract_annotations_step acc p = Ok acc' ∧
            ∀ name, slot acc' name =
                    if decide (name = param_name p) then Some a else slot acc name.
Proof.
  intros [[a Ha] Hname]. destruct p as [n o]. cbn in *. subst o.
  destruct acc as [hd mi qp bd rs].
  unfold reserved_names in Hname. rewrite !elem_of_cons, elem_of_nil in Hname.
  destruct Hname as [->|[->|[->|[->|[->|[]]]]]];
    (eexists a, _; split; [done|]; split; [done|]);
    intros name; unfold slot; cbn;
    (case_decide as Hn; [subst name; reflexivity|]);
    repeat match goal with
           | |- context [String.eqb name ?x] =>
               destruct (String.eqb_spec name x) as [Heq|_];
               [first [reflexivity | by destruct Hn]|]
           end;
    reflexivity.
Qed.

Lemma _extract_annotations_loop_app acc params1 params2 :
  _extract_annotations_loop acc (params1 ++ params2) =
    (acc' ← _extract_annotations_loop acc params1;
     _extract_annotations_loop acc' params2).
Proof.
  revert acc. induction params1 as [|p params1 IH]; intros acc; [done|].
  cbn. destruct (_extract_annotations_step acc p) as [acc'|]; [|done].
  cbn. apply IH.
Qed.

(** Accepted parameters are extracted to the end; a slot holds an
    annotation when a parameter of its name is in the list (the last one
    wins), and what it held before otherwise. *)
Lemma _extract_annotations_loop_accepted params : ∀ acc,
  Forall accepted params →
  ∃ ann, _extract_annotations_loop acc params = Ok ann ∧
         ∀ name,
           (∀ a, slot ann name = Some a →
                 {| param_name := name; param_annotation := Some a |} ∈ params ∨
                 slot acc name = Some a) ∧
           (name ∉ param_name <$> params → slot ann name = slot acc name).
Proof.
  induction params as [|p params IH]; intros acc Hok.
  - exists acc. split; [done|]. intros name. split; [by right|done].
  - apply Forall_cons_1 in Hok as [Hp Hok].
    destruct (_extract_annotations_step_accepted acc p Hp) as (a & acc' & Ha & Hstep & Hslot).
    destruct (IH acc' Hok) as (ann & Hloop & Hann).
    exists ann. split; [by cbn [_extract_annotations_loop]; rewrite Hstep|].
    intros name. destruct (Hann name) as [Hin Hout]. split.
    + intros b Hb. destruct (Hin b Hb) as [Hel|Hacc'].
      * left. apply elem_of_cons. by right.
      * rewrite Hslot in Hacc'. case_decide as Hn; [|by right].
        left. apply elem_of_cons. left. destruct p as [n o]. cbn in *. congruence.
    + rewrite fmap_cons, not_elem_of_cons. intros [Hne Hnin].
      rewrite (Hout Hnin), Hslot. by case_decide.
Qed.

(** X1: a signature whose parameters are all annotated and carry reserved
    names, each name once, is extracted without error, and a slot of the
    result holds an annotation exactly when the signature has a parameter
    of that name with that annotation. *)
Theorem X1_extract_annotations_of_accepted_signature (method : Method) :
  Forall accepted (parameters method) →
  NoDup (param_name <$> parameters method) →
  ∃ ann, _extract_annotations method = Ok ann ∧
         ∀ name a,
           slot ann name = Some a ↔
           {| param_name := name; param_annotation := Some a |} ∈ parameters method.
Proof.
  unfold _extract_annotations. generalize (parameters method). intros params Hok Hnd.
  destruct (_extract_annotations_loop_accepted params no_annotations Hok)
    as (ann & Hloop & Hann).
  exists ann. split; [done|]. intros name a. split.
  - intros Ha. destruct (proj1 (Hann name) a Ha) as [Hin|Hnone]; [done|].
    unfold slot, no_annotations in Hnone. cbn in Hnone.
    by repeat destruct (String.eqb _ _).
  - clear Hann. revert ann Hloop. generalize no_annotations.
    induction params as [|p params IH]; intros acc ann Hloop Hin.
    { by apply elem_of_nil in Hin. }
    apply Forall_cons_1 in Hok as [Hp Hok].
    rewrite fmap_cons in Hnd. apply NoDup_cons in Hnd as [Hfresh Hnd].
    destruct (_extract_annotations_step_accepted acc p Hp) as (b & acc' & Hb & Hstep & Hslot).
    cbn in Hloop. rewrite Hstep in Hloop. cbn in Hloop.
    apply elem_of_cons in Hin as [<-|Hin].
    + cbn in *. injection Hb as <-.
      destruct (_extract_annotations_loop_accepted params acc' Hok) as (ann' & Hloop' & Hann').
      rewrite Hloop' in Hloop. injection Hloop as <-.
      rewrite (proj2 (Hann' name) Hfresh), Hslot. by case_decide.
    + by apply (IH Hok Hnd acc').
Qed.

Lemma X1_extract_annotations_of_accepted_signature_witness :
  ∃ ann, _extract_annotations post_headers_body = Ok ann ∧
         slot ann "headers" = Some (AnnModel TokenHeaders) ∧
         slot ann "body" = Some (AnnModel NamedBody).
Proof.
  destruct (X1_extract_annotations_of_accepted_signature post_headers_body)
    as (ann & Hann & Hslot).
  - repeat constructor; try (by eexists); by vm_compute.
  - apply (bool_decide_unpack _). reflexivity.
  - exists ann. split; [exact Hann|]. split; apply Hslot.
    + apply elem_of_cons. by left.
    + apply elem_of_cons. right. apply elem_of_cons. by left.
Defined.

(** The pipeline gives up with the error of the signature. *)
Lemma _handle_incoming_request_signature_error (self : View) (request : Request)
    (st : State) (method : Method) (e : exn) :
  req_method request ∈ METH_ALL →
  getattr self (lower (req_method request)) = Some method →
  _extract_annotations method = Raise e →
  _handle_incoming_request self request st = Raise e.
Proof.
  intros Hin Hattr Hann. unfold _handle_incoming_request.
  rewrite bool_decide_eq_true_2 by done. cbn.
  unfold _get_handler_method. rewrite Hattr. cbn. by rewrite Hann.
Qed.

(** X2: the first parameter that is not accepted decides the error of the
    extraction: a parameter without annotation gives "missing parameter
    type", whatever its name; an annotated parameter whose name is not
    reserved gives "unexpected parameter", and the names listed as supported
    are the four data surfaces, without [response].  The request is then
    not processed at all. *)
Theorem X2_first_rejected_parameter_decides (self : View) (request : Request)
    (st : State) (method : Method) (before after : list SigParameter)
    (p : SigParameter) :
  req_method request ∈ METH_ALL →
  getattr self (lower (req_method request)) = Some method →
  parameters method = (before ++ p :: after)%list →
  Forall accepted before →
  ¬ accepted p →
  let e := match param_annotation p with
           | None => ExtractionTypeError (MissingParameterType (param_name p))
           | Some _ => ExtractionTypeError
                         (UnexpectedParameter (param_name p)
                            {[ "headers"; "query_params"; "match_info"; "body" ]})
           end in
  _extract_annotations method = Raise e ∧
  _handle_incoming_request self request st = Raise e.
Proof.
  intros Hin Hattr Hparams Hbefore Hp e.
  assert (_extract_annotations method = Raise e) as He.
  { unfold _extract_annotations. rewrite Hparams, _extract_annotations_loop_app.
    destruct (_extract_annotations_loop_accepted before no_annotations Hbefore)
      as (acc & -> & _).
    cbn. subst e. unfold _extract_annotations_step.
    destruct p as [n [a|]]; cbn; [|done].
    destruct acc as [hd mi qp bd rs].
    assert (n ∉ reserved_names) as Hn.
    { intros Hn. apply Hp. split; [by eexists|done]. }
    unfold reserved_names in Hn. rewrite !not_elem_of_cons in Hn.
    destruct Hn as (H1 & H2 & H3 & H4 & H5 & _).
    apply String.eqb_neq in H1, H2, H3, H4, H5.
    by rewrite H1, H2, H3, H4, H5. }
  split; [exact He|].
  by apply (_handle_incoming_request_signature_error self request st method).
Qed.

Lemma X2_first_rejected_parameter_decides_witness :
  _handle_incoming_request (view_with "get" get_with_user_id)
    (sample_request "GET" [] EmptyString None) empty_state
  = Raise (ExtractionTypeError
             (UnexpectedParameter "user_id"
                {[ "headers"; "query_params"; "match_info"; "body" ]})).
Proof.
  refine (proj2 (X2_first_rejected_parameter_decides
                   (view_with "get" get_with_user_id)
                   (sample_request "GET" [] EmptyString None) empty_state
                   get_with_user_id
                   [annotated "headers" (AnnModel TokenHeaders)] []
                   (annotated "user_id" (AnnType py_int)) _ eq_refl eq_refl _ _)).
  - by vm_compute.
  - apply Forall_cons. split; [|apply Forall_nil_2].
    split; [by eexists|]. apply elem_of_cons. by left.
  - intros [_ Hname]. unfold reserved_names in Hname. cbn in Hname.
    repeat (apply elem_of_cons in Hname as [Hname|Hname]; [discriminate Hname|]).
    by apply elem_of_nil in Hname.
Defined.

End signature.

(** ** Validators, extraction and dispatch *)

Section dispatch.

Implicit Types (request : Request) (ann : _ExtractedAnnotations)
  (extracted : _ExtractedData) (v : validation) (s : surface).



(** What the three header-like validators do with the outcome of the
    schema. *)
Lemma schema_outcome_exclusive (schema : annotation) data v :
  ('(x, errors) ← _validate_pydantic_schema schema data;
   if errors_truthy errors then Ok (None, errors) else Ok (x, None)) = Ok v →
  (v.1 = None ∨ v.2 = None) ∧
  ∀ errs, v.2 = Some errs → v.1 = None ∧ errs ≠ [].
Proof.
  destruct (_validate_pydantic_schema schema data) as [[x errors]|]; [|done].
  cbn. destruct errors as [[|e errs]|]; cbn; intros [= <-]; cbn;
    (split; [tauto|]); intros errs' [= <-]; done.
Qed.

Lemma validate_surface_exclusive request s (ty : annotation) v :
  validate_surface request s ty = Ok v →
  (v.1 = None ∨ v.2 = None) ∧
  ∀ errs, v.2 = Some errs → v.1 = None ∧ errs ≠ [].
Proof.
  destruct s; cbn [validate_surface];
    [apply schema_outcome_exclusive..|].
  unfold _validate_body_data.
  destruct (_fetch_body_data request) as [data|[]]; try done;
    try (intros [= <-]; cbn; split; [tauto|]; by intros errs [= <-]).
  destruct ty as [cls| |t|].
  - destruct (as_kwargs data) as [kw|]; [|done].
    apply (schema_outcome_exclusive (AnnModel cls) kw).
  - cbn. intros [= <-]. cbn. split; [tauto|]. by intros errs [= <-].
  - cbn. destruct (call t data) as [w|[]]; try done;
      intros [= <-]; cbn; (split; [tauto|]); intros errs ?; by simplify_eq/=.
  - cbn. intros [= <-]. cbn. split; [tauto|]. by intros errs [= <-].
Qed.

(** X4: a validator never hands back both a value and errors, and the
    error list it hands back is never empty. *)
Theorem X4_validators_are_exclusive request s (ty : annotation) v :
  validate_surface request s ty = Ok v →
  (v.1 = None ∨ v.2 = None) ∧
  ∀ errs, v.2 = Some errs → v.1 = None ∧ errs ≠ [].
Proof.
  destruct s; cbn [validate_surface];
    [apply schema_outcome_exclusive..|].
  unfold _validate_body_data.
  destruct (_fetch_body_data request) as [data|[]]; try done;
    try (intros [= <-]; cbn; split; [tauto|]; by intros errs [= <-]).
  destruct ty as [cls| |t|].
  - destruct (as_kwargs data) as [kw|]; [|done].
    apply (schema_outcome_exclusive (AnnModel cls) kw).
  - cbn. intros [= <-]. cbn. split; [tauto|]. by intros errs [= <-].
  - cbn. destruct (call t data) as [w|[]]; try done;
      intros [= <-]; cbn; (split; [tauto|]); intros errs ?; by simplify_eq/=.
  - cbn. intros [= <-]. cbn. split; [tauto|]. by intros errs [= <-].
Qed.

Lemma X4_validators_are_exclusive_witness :
  ∃ errs, _validate_headers (sample_request "GET" [] EmptyString None)
            (AnnModel TokenHeaders) = Ok (None, Some errs) ∧ errs ≠ [].
Proof.
  eexists. split; [reflexivity|].
  apply (X4_validators_are_exclusive (sample_request "GET" [] EmptyString None)
           Headers (AnnModel TokenHeaders) _ eq_refl). reflexivity.
Defined.

Lemma slots_of_validation_one v :
  (∃ x, slots_of_validation v = (Some (ArgValidated x), None) ∧
        v.1 = Some x ∧ validated_truthy x = true) ∨
  (slots_of_validation v = (None, Some v.2)).
Proof.
  unfold slots_of_validation. destruct v as [[x|] e]; cbn; [|by right].
  destruct (validated_truthy x) eqn:Hx; [left; by exists x|by right].
Qed.

(** A name that is not the name of a surface is never bound and never in
    error. *)
Lemma _extract_data_slots_outside request ann extracted name :
  _extract_data request ann = Ok extracted →
  (∀ s, name ≠ surface_name s) →
  slots name extracted = (None, None).
Proof.
  unfold _extract_data. intros Hdata Hname.
  destruct (extract_surface _headers_schema_name _ _ _) as [d1|] eqn:H1; [|done].
  cbn in Hdata.
  destruct (extract_surface _match_info_schema_name _ _ _) as [d2|] eqn:H2; [|done].
  cbn in Hdata.
  destruct (extract_surface _url_params_schema_name _ _ _) as [d3|] eqn:H3; [|done].
  cbn in Hdata.
  rewrite (extract_surface_slots_ne _ _ _ _ _ _ Hdata (Hname Body)).
  rewrite (extract_surface_slots_ne _ _ _ _ _ _ H3 (Hname QueryParams)).
  rewrite (extract_surface_slots_ne _ _ _ _ _ _ H2 (Hname MatchInfo)).
  by rewrite (extract_surface_slots_ne _ _ _ _ _ _ H1 (Hname Headers)).
Qed.

Lemma surface_name_cases name :
  (∃ s, name = surface_name s) ∨ (∀ s, name ≠ surface_name s).
Proof.
  destruct (decide (name = surface_name Headers)); [left; by eexists|].
  destruct (decide (name = surface_name MatchInfo)); [left; by eexists|].
  destruct (decide (name = surface_name QueryParams)); [left; by eexists|].
  destruct (decide (name = surface_name Body)); [left; by eexists|].
  right. by intros [].
Qed.

(** X5: after extraction, only names of declared surfaces are bound or in
    error, and no name is both bound in the parameter mapping and present
    in the error mapping. *)
Theorem X5_extraction_keeps_surfaces_apart request ann extracted (name : string) :
  _extract_data request ann = Ok extracted →
  (is_Some (method_params extracted !! name) ∨
   is_Some (validation_errors extracted !! name) →
   ∃ s, name = surface_name s ∧ is_Some (declared ann s)) ∧
  ¬ (is_Some (method_params extracted !! name) ∧
     is_Some (validation_errors extracted !! name)).
Proof.
  intros Hdata.
  destruct (surface_name_cases name) as [[s ->]|Hout].
  - pose proof (_extract_data_stores_every_surface request ann extracted s Hdata) as Hs.
    unfold slots in Hs.
    destruct (declared ann s) as [ty|] eqn:Hdecl.
    + destruct Hs as (v & _ & Hslots). split; [intros _; by exists s|].
      destruct (slots_of_validation_one v) as [(x & Hv & _)|Hv];
        rewrite Hv in Hslots; injection Hslots as -> ->;
        intros [[? ?] [? ?]]; discriminate.
    + injection Hs as -> ->. split.
      * intros [[? ?]|[? ?]]; discriminate.
      * intros [[? ?] _]. discriminate.
  - pose proof (_extract_data_slots_outside request ann extracted name Hdata Hout) as Hs.
    injection Hs as -> ->. split.
    + intros [[? ?]|[? ?]]; discriminate.
    + intros [[? ?] _]. discriminate.
Qed.

Lemma X5_extraction_keeps_surfaces_apart_witness :
  ∃ extracted,
    _extract_data (sample_request "POST" [("Content-Type", "application/json")]
                     EmptyString (Some (PDict [("name", PStr "n")])))
      {| headers := Some (AnnModel TokenHeaders); match_info := None;
         query_params := None; body := Some (AnnModel NamedBody);
         response := None |} = Ok extracted ∧
    ¬ (is_Some (method_params extracted !! "body") ∧
       is_Some (validation_errors extracted !! "body")).
Proof.
  destruct (_extract_data
              (sample_request "POST" [("Content-Type", "application/json")]
                 EmptyString (Some (PDict [("name", PStr "n")])))
              {| headers := Some (AnnModel TokenHeaders); match_info := None;
                 query_params := None; body := Some (AnnModel NamedBody);
                 response := None |}) as [extracted|e] eqn:Hdata.
  - exists extracted. split; [reflexivity|].
    exact (proj2 (X5_extraction_keeps_surfaces_apart _ _ _ "body" Hdata)).
  - vm_compute in Hdata. discriminate Hdata.
Defined.

(** With an empty error mapping the pipeline is the call of the handler
    method followed by the normalisation of what it returned. *)
Lemma _handle_incoming_request_dispatch (self : View) request (st : State)
    (method : Method) ann extracted :
  req_method request ∈ METH_ALL →
  getattr self (lower (req_method request)) = Some method →
  _extract_annotations method = Ok ann →
  response_annotation_ok (response ann) →
  _extract_data request ann = Ok extracted →
  validation_errors extracted = ∅ →
  _handle_incoming_request self request st =
    ('(ret, h1) ← invoke method (call_arguments ann extracted (heap st))
                    (heap_at_call ann (heap st));
     '(out, h2) ← _handle_response ret new_ResponseSchema (injected ann (heap st)) h1;
     Ok (out, {| heap := h2;
                 invocations := (invocations st ++
                                 [call_arguments ann extracted (heap st)])%list |})).
Proof.
  intros Hin Hattr Hann Hresp Hdata Herrs.
  unfold _handle_incoming_request, call_arguments, heap_at_call, injected.
  rewrite bool_decide_eq_true_2 by done. cbn.
  unfold _get_handler_method. rewrite Hattr. cbn. rewrite Hann. cbn.
  destruct (response ann) as [[cls| |t|]|]; try done; cbn; rewrite Hdata; cbn;
    rewrite Herrs; rewrite bool_decide_eq_true_2 by done; cbn; done.
Qed.

(** X6: when extraction ends without any error entry, the handler method
    is called, once, with every declared surface bound to the value its
    validator returned, plus the injected response (a new object with
    default status) when [response] is declared; the pipeline is then that
    call followed by the normalisation of its result. *)
Theorem X6_valid_request_calls_handler_once (self : View) request (st : State)
    (method : Method) ann extracted :
  req_method request ∈ METH_ALL →
  getattr self (lower (req_method request)) = Some method →
  _extract_annotations method = Ok ann →
  response_annotation_ok (response ann) →
  _extract_data request ann = Ok extracted →
  validation_errors extracted = ∅ →
  let kw := call_arguments ann extracted (heap st) in
  let h0 := heap_at_call ann (heap st) in
  (∀ s ty, declared ann s = Some ty →
     ∃ x, validate_surface request s ty = Ok (Some x, None) ∧
          kw !! surface_name s = Some (ArgValidated x)) ∧
  (∀ r, kw !! _response_object_name = Some (ArgResponse r) →
     response ann = Some AnnResponse ∧ heap st !! r = None ∧
     h0 !! r = Some new_Response) ∧
  (response ann = Some AnnResponse → is_Some (kw !! _response_object_name)) ∧
  _handle_incoming_request self request st =
    ('(ret, h1) ← invoke method kw h0;
     '(out, h2) ← _handle_response ret new_ResponseSchema (injected ann (heap st)) h1;
     Ok (out, {| heap := h2; invocations := (invocations st ++ [kw])%list |})).
Proof.
  intros Hin Hattr Hann Hresp Hdata Herrs kw h0.
  split; [|split; [|split]].
  - intros s ty Hdecl.
    pose proof (_extract_data_stores_every_surface request ann extracted s Hdata) as Hs.
    rewrite Hdecl in Hs. destruct Hs as (v & Hv & Hslots).
    unfold slots in Hslots. rewrite Herrs, lookup_empty in Hslots.
    destruct (slots_of_validation_one v) as [(x & Hx & Hv1 & _)|Hx];
      rewrite Hx in Hslots; [|discriminate Hslots].
    injection Hslots as Hlk. exists x. split.
    + destruct (validate_surface_exclusive request s ty v Hv) as [[Hn|Hn] _].
      * rewrite Hv1 in Hn. discriminate Hn.
      * destruct v as [v1 v2]. cbn in *. by subst.
    + subst kw. unfold call_arguments.
      destruct (response ann); [|done].
      rewrite lookup_insert_ne; [done|]. by destruct s.
  - intros r Hr. subst kw h0. unfold call_arguments, heap_at_call in *.
    destruct (response ann) as [[cls| |t|]|] eqn:Hra; try done.
    + rewrite lookup_insert_eq in Hr. injection Hr as <-.
      split; [done|]. split.
      * by apply lookup_ge_None_2.
      * by rewrite list_lookup_middle.
    + pose proof (_extract_data_slots_outside request ann extracted
                    _response_object_name Hdata) as Hs.
      unfold slots in Hs. rewrite Hr in Hs.
      discriminate Hs. by intros [].
  - intros Hra. subst kw. unfold call_arguments. rewrite Hra.
    rewrite lookup_insert_eq. by eexists.
  - by apply _handle_incoming_request_dispatch.
Qed.

Lemma X6_valid_request_calls_handler_once_witness :
  ∃ st' kw,
    _handle_incoming_request (view_with "post" post_headers_body)
      valid_post_request empty_state = Ok (OResponse 0, st') ∧
    invocations st' = [kw] ∧
    kw !! "body" = Some (ArgValidated (VModel {| model_fields := [("name", PStr "n")] |})) ∧
    status (heap st' !!! 0%nat) = 200.
Proof.
  destruct (_extract_data valid_post_request headers_body_annotations)
    as [extracted|e] eqn:Hdata; [|vm_compute in Hdata; discriminate Hdata].
  assert (validation_errors extracted = ∅ ∧
          method_params extracted !! "body"
          = Some (ArgValidated (VModel {| model_fields := [("name", PStr "n")] |})))
    as [Herrs Hbody].
  { vm_compute in Hdata. injection Hdata as <-. split; reflexivity. }
  destruct (X6_valid_request_calls_handler_once
              (view_with "post" post_headers_body) valid_post_request empty_state
              post_headers_body headers_body_annotations extracted)
    as (_ & _ & _ & Hrun); [by vm_compute|reflexivity|reflexivity|exact I|done..|].
  rewrite Hrun. eexists _, _. split; [reflexivity|]. split; [reflexivity|].
  split; [exact Hbody|reflexivity].
Defined.

End dispatch.

(** ** More on response normalisation *)

Section normaliser.

Implicit Types (h : list Response) (schema : _ResponseSchema)
  (annotated_response : option nat).

(** X7: a returned tuple that does not have exactly two elements is a
    "handler result type" error, whatever it holds and whether or not a
    response was injected. *)
Theorem X7_tuple_of_wrong_arity (items : list pyobj) schema annotated_response h :
  List.length items ≠ 2%nat →
  _handle_response (OTuple items) schema annotated_response h
    = Raise HandlerResultTypeError.
Proof.
  intros Hlen. unfold _handle_response, unpack_method_response.
  by destruct items as [|x [|y [|z items]]].
Qed.

Lemma X7_tuple_of_wrong_arity_witness :
  _handle_response (OTuple [OModel sample_model; OValue (PInt 201); OValue (PStr "x")])
    new_ResponseSchema None [] = Raise HandlerResultTypeError.
Proof. apply X7_tuple_of_wrong_arity. cbn. lia. Defined.

(** X8: a payload that is neither a model instance nor a transport
    response (a string, a dict, [None], a class, ...) is an "unhandled
    response type" error; for a tuple this comes after the status indicator
    has been resolved. *)
Theorem X8_unrecognised_payload (method_response payload : pyobj) (code : Z)
    schema annotated_response h :
  unpack_method_response method_response annotated_response h = Ok (payload, code) →
  _get_handler_response_type payload = another →
  _handle_response method_response schema annotated_response h
    = Raise UnhandledResponseTypeError.
Proof.
  intros Hunpack Hty. unfold _handle_response. rewrite Hunpack. cbn.
  by rewrite Hty.
Qed.

Lemma X8_unrecognised_payload_witness :
  _handle_response (OValue (PStr "ok")) new_ResponseSchema None []
    = Raise UnhandledResponseTypeError ∧
  _handle_response (OTuple [OValue PNone; OValue (PInt 204)]) new_ResponseSchema None []
    = Raise UnhandledResponseTypeError.
Proof.
  split.
  - apply (X8_unrecognised_payload (OValue (PStr "ok")) (OValue (PStr "ok")) 200);
      reflexivity.
  - apply (X8_unrecognised_payload (OTuple [OValue PNone; OValue (PInt 204)])
             (OValue PNone) 204); reflexivity.
Defined.

(** X9: without an injected response, a transport response returned by the
    handler is passed through as it is and no response object is changed;
    in a tuple the resolved status code is not applied to it. *)
Theorem X9_transport_response_passes_through (method_response payload : pyobj)
    (code : Z) schema h :
  unpack_method_response method_response None h = Ok (payload, code) →
  _get_handler_response_type payload = web_response →
  _handle_response method_response schema None h = Ok (payload, h).
Proof.
  intros Hunpack Hty. unfold _handle_response. rewrite Hunpack. cbn.
  by destruct payload as [m|r|v|c|[c|n]|items].
Qed.

Lemma X9_transport_response_passes_through_witness :
  _handle_response (OTuple [OResponse 0; OValue (PInt 201)]) new_ResponseSchema None
    [new_Response] = Ok (OResponse 0, [new_Response]).
Proof.
  apply (X9_transport_response_passes_through
           (OTuple [OResponse 0; OValue (PInt 201)]) (OResponse 0) 201);
    reflexivity.
Defined.

(** The cell written for a model payload, and what is left alone. *)
Lemma _handle_response_model_cell method_response schema annotated_response h m code doc :
  unpack_method_response method_response annotated_response h = Ok (OModel m, code) →
  ResponseSchema_json (set_result schema m) = Some doc →
  (∀ r, annotated_response = Some r → (r < List.length h)%nat) →
  let r := default (List.length h) annotated_response in
  let before := match annotated_response with
                | Some r0 => status (h !!! r0)
                | None => 200
                end in
  ∃ h', _handle_response method_response schema annotated_response h
          = Ok (OResponse r, h') ∧
        h' !!! r = json_response (if decide (code = 0) then before else code) doc ∧
        (∀ i, i ≠ r → h' !! i = h !! i) ∧
        List.length h' = (List.length h +
                          match annotated_response with Some _ => 0 | None => 1 end)%nat.
Proof.
  intros Hunpack Hdoc Hvalid r before. subst r before.
  unfold _handle_response. rewrite Hunpack.
  cbn [mbind result_bind _get_handler_response_type].
  destruct annotated_response as [r0|]; cbn [default alloc].
  - destruct (_return_json_response_ok r0 _ code h doc Hdoc)
      as (h' & Hret & Hlen & Hcell); [by apply Hvalid|].
    rewrite Hret. cbn. exists h'. split; [done|]. split; [done|].
    split; [|lia]. intros i Hi.
    unfold _return_json_response in Hret. rewrite Hdoc in Hret.
    injection Hret as <-. by rewrite list_lookup_insert_ne.
  - destruct (_return_json_response_ok (List.length h) _ code (h ++ [new_Response]) doc Hdoc)
      as (h' & Hret & Hlen & Hcell); [rewrite length_app; cbn; lia|].
    rewrite Hret. cbn. exists h'. split; [done|].
    rewrite list_lookup_total_middle in Hcell by done. split; [done|].
    split; [|rewrite Hlen, length_app; cbn; lia]. intros i Hi.
    unfold _return_json_response in Hret. rewrite Hdoc in Hret.
    injection Hret as <-. rewrite list_lookup_insert_ne by done.
    destruct (decide (i < List.length h)%nat).
    + by rewrite lookup_app_l.
    + rewrite !lookup_ge_None_2; [done|lia|rewrite length_app; cbn; lia].
Qed.

(** X10: a resolved status code of 0 is not applied: the reply to a model
    payload keeps the status of the response it is written to, 200 for a
    new response. *)
Theorem X10_zero_status_is_not_applied (method_response : pyobj) (m : BaseModel)
    schema annotated_response h :
  unpack_method_response method_response annotated_response h = Ok (OModel m, 0) →
  json_encodable (PDict (model_fields m)) = true →
  (∀ r, annotated_response = Some r → (r < List.length h)%nat) →
  ∃ r h', _handle_response method_response schema annotated_response h
            = Ok (OResponse r, h') ∧
          status (h' !!! r) = match annotated_response with
                              | Some r0 => status (h !!! r0)
                              | None => 200
                              end.
Proof.
  intros Hunpack Hm Hvalid.
  destruct (set_result_json schema m Hm) as [doc Hdoc].
  destruct (_handle_response_model_cell method_response schema annotated_response
              h m 0 doc Hunpack Hdoc Hvalid) as (h' & Hout & Hcell & _).
  eexists _, h'. split; [exact Hout|]. by rewrite Hcell.
Qed.

Lemma X10_zero_status_is_not_applied_witness :
  ∃ r h', _handle_response (OTuple [OModel sample_model; OValue (PInt 0)])
            new_ResponseSchema None [] = Ok (OResponse r, h') ∧
          status (h' !!! r) = 200.
Proof.
  apply (X10_zero_status_is_not_applied
           (OTuple [OModel sample_model; OValue (PInt 0)]) sample_model
           new_ResponseSchema None []); [reflexivity..|].
  intros r Hr. discriminate Hr.
Defined.

(** X11: a model payload that the JSON encoder cannot serialise is a
    "cannot serialize response" error; no response is returned. *)
Theorem X11_unserialisable_model (method_response : pyobj) (m : BaseModel)
    (code : Z) schema annotated_response h :
  unpack_method_response method_response annotated_response h = Ok (OModel m, code) →
  json_encodable (PDict (model_fields m)) = false →
  _handle_response method_response schema annotated_response h
    = Raise CannotSerializeResponseError.
Proof.
  intros Hunpack Hm. unfold _handle_response. rewrite Hunpack.
  cbn [mbind result_bind _get_handler_response_type].
  assert (ResponseSchema_json (set_result schema m) = None) as Hdoc.
  { unfold ResponseSchema_json. cbn [result_ set_result]. by rewrite Hm. }
  destruct annotated_response as [r|]; cbn [alloc];
    unfold _return_json_response; by rewrite Hdoc.
Qed.

Lemma X11_unserialisable_model_witness :
  _handle_response (OModel {| model_fields := [("when", PObject "datetime.tzinfo")] |})
    new_ResponseSchema None [] = Raise CannotSerializeResponseError.
Proof.
  apply (X11_unserialisable_model
           (OModel {| model_fields := [("when", PObject "datetime.tzinfo")] |})
           {| model_fields := [("when", PObject "datetime.tzinfo")] |} 200);
    reflexivity.
Defined.

(** X12: the reply to a model payload is the response that was injected,
    or a new one: it gets the JSON content type, the resolved status code
    and, as its document, the envelope with no errors and the model as
    result; every other response object is left as it was. *)
Theorem X12_model_reply (method_response : pyobj) (m : BaseModel) (code : Z)
    annotated_response h :
  unpack_method_response method_response annotated_response h = Ok (OModel m, code) →
  json_encodable (PDict (model_fields m)) = true →
  (∀ r, annotated_response = Some r → (r < List.length h)%nat) →
  code ≠ 0 →
  let r := default (List.length h) annotated_response in
  ∃ h', _handle_response method_response new_ResponseSchema annotated_response h
          = Ok (OResponse r, h') ∧
        h' !!! r = json_response code
                     (PDict [("errors", PNone); ("result", PDict (model_fields m))]) ∧
        ∀ i, i ≠ r → h' !! i = h !! i.
Proof.
  intros Hunpack Hm Hvalid Hcode r.
  assert (ResponseSchema_json (set_result new_ResponseSchema m)
          = Some (PDict [("errors", PNone); ("result", PDict (model_fields m))])) as Hdoc.
  { unfold ResponseSchema_json. cbn [result_ set_result errors new_ResponseSchema].
    by rewrite Hm. }
  destruct (_handle_response_model_cell method_response new_ResponseSchema
              annotated_response h m code _ Hunpack Hdoc Hvalid)
    as (h' & Hout & Hcell & Hframe & _).
  cbn zeta in Hcell. subst r.
  exists h'. split; [exact Hout|]. split; [|exact Hframe].
  rewrite Hcell. by case_decide.
Qed.

Lemma X12_model_reply_witness :
  ∃ h', _handle_response (OTuple [OModel sample_model; OClass HTTPNotFound])
          new_ResponseSchema None [new_Response] = Ok (OResponse 1, h') ∧
        h' !!! 1%nat = json_response 404
                         (PDict [("errors", PNone);
                                 ("result", PDict [("ok", PBool true)])]) ∧
        h' !! 0%nat = Some new_Response.
Proof.
  destruct (X12_model_reply (OTuple [OModel sample_model; OClass HTTPNotFound])
              sample_model 404 None [new_Response])
    as (h' & Hout & Hcell & Hframe); [reflexivity|reflexivity| |lia|].
  - intros r Hr. discriminate Hr.
  - exists h'. split; [exact Hout|]. split; [exact Hcell|].
    apply (Hframe 0%nat). cbn. lia.
Defined.

End normaliser.

(** ** More on bodies *)

Section bodies.

Implicit Types (request : Request) (ann : _ExtractedAnnotations)
  (cls : ModelClass) (t : PlainType) (data : pyval).

(** X13: for a body parameter annotated with a type that is not a model,
    a [ValueError] or a [TypeError] of its constructor, or an exception of
    a class derived from them ([JSONDecodeError], [UnicodeDecodeError]),
    becomes one field error located at [body], whose message and kind come
    from the table of the builtin types; a type outside the table gives the
    message "value is not a" followed by the type and the kind
    [type_error.type].  A lookup error ([IndexError], [KeyError]) of the
    constructor is not caught. *)
Theorem X13_plain_body_coercion_failure request t data (e : exn) :
  _fetch_body_data request = Ok data →
  call t data = Raise e →
  (e = ValueError ∨ e = TypeError ∨ e = JSONDecodeError ∨ e = UnicodeDecodeError →
   ∃ err, _validate_body_data request (AnnType t) = Ok (None, Some [err]) ∧
          loc err = [LocStr "body"] ∧
          msg err = msg_template (_get_pydantic_error_type (type_ident t)) ∧
          type err = "type_error." +:+ code (_get_pydantic_error_type (type_ident t)) ∧
          (∀ repr, type_ident t = OtherType repr →
                   msg err = "value is not a " +:+ repr ∧
                   type err = "type_error.type")) ∧
  (e = IndexError ∨ e = KeyError →
   _validate_body_data request (AnnType t) = Raise e).
Proof.
  intros Hfetch Hcall. unfold _validate_body_data. rewrite Hfetch. cbn.
  rewrite Hcall. split.
  - intros He. eexists.
    split; [by destruct He as [-> | [-> | [-> | ->]]]|].
    cbn. split; [done|]. split; [done|]. split; [done|].
    intros r Hr. by rewrite Hr.
  - by intros [-> | ->].
Qed.

Lemma X13_plain_body_coercion_failure_witness :
  _validate_body_data
    (sample_request "POST" [("Content-Type", "text/plain")] "abc" None)
    (AnnType py_int)
  = Ok (None, Some [ {| loc := [LocStr "body"];
                        msg := "value is not a valid integer";
                        type := "type_error.integer" |} ]).
Proof.
  destruct (X13_plain_body_coercion_failure
              (sample_request "POST" [("Content-Type", "text/plain")] "abc" None)
              py_int (PStr "abc") ValueError eq_refl eq_refl) as [Hcaught _].
  destruct (Hcaught (or_introl eq_refl)) as (err & Hv & Hloc & Hmsg & Hty & _).
  rewrite Hv. destruct err as [l m k]. cbn in Hloc, Hmsg, Hty.
  by rewrite Hloc, Hmsg, Hty.
Defined.

Lemma _validate_body_data_not_a_mapping request cls data :
  _fetch_body_data request = Ok data →
  not_a_mapping data →
  _validate_body_data request (AnnModel cls) = Raise TypeError.
Proof.
  intros Hfetch Hdata. unfold _validate_body_data. rewrite Hfetch.
  by destruct data.
Qed.

(** With model classes on the header-like surfaces, a [TypeError] of the
    body validator, or of a surface before it, is what extraction ends
    with. *)
Lemma _extract_data_body_raise request ann cls :
  model_or_undeclared (headers ann) →
  model_or_undeclared (match_info ann) →
  model_or_undeclared (query_params ann) →
  body ann = Some (AnnModel cls) →
  _validate_body_data request (AnnModel cls) = Raise TypeError →
  _extract_data request ann = Raise TypeError.
Proof.
  intros Hh Hmi Hqp Hbody Hv. unfold _extract_data.
  destruct (extract_surface_model _headers_schema_name _
              (dict_of_headers (req_headers request)) (_validate_headers request)
              {| method_params := ∅; validation_errors := ∅ |}
              (λ _, eq_refl) Hh) as [[d1 H1]|H1];
    rewrite H1; [|done]. cbn.
  destruct (extract_surface_model _match_info_schema_name _
              (_fetch_match_info_data request) (_validate_match_info request) d1
              (λ _, eq_refl) Hmi) as [[d2 H2]|H2];
    rewrite H2; [|done]. cbn.
  destruct (extract_surface_model _url_params_schema_name _
              (_fetch_query_params_data request) (_validate_query_params request) d2
              (λ _, eq_refl) Hqp) as [[d3 H3]|H3];
    rewrite H3; [|done]. cbn.
  rewrite Hbody. unfold extract_surface. cbn. by rewrite Hv.
Qed.

Lemma _handle_incoming_request_extraction_error (self : View) request (st : State)
    (method : Method) ann (e : exn) :
  req_method request ∈ METH_ALL →
  getattr self (lower (req_method request)) = Some method →
  _extract_annotations method = Ok ann →
  response_annotation_ok (response ann) →
  _extract_data request ann = Raise e →
  _handle_incoming_request self request st = Raise e.
Proof.
  intros Hin Hattr Hann Hresp Hdata. unfold _handle_incoming_request.
  rewrite bool_decide_eq_true_2 by done. cbn.
  unfold _get_handler_method. rewrite Hattr. cbn. rewrite Hann. cbn.
  destruct (response ann) as [[c| |t|]|]; try done; cbn; by rewrite Hdata.
Qed.

(** X14: a body that is not a mapping (any [text/plain] body, a JSON list,
    string, number or [null]) sent to a body parameter annotated with a
    model class makes the body validator raise [TypeError]; with model
    classes on the other surfaces the pipeline ends with that exception,
    not with a response. *)
Theorem X14_non_mapping_body_for_a_model (self : View) request (st : State)
    (method : Method) ann cls data :
  req_method request ∈ METH_ALL →
  getattr self (lower (req_method request)) = Some method →
  _extract_annotations method = Ok ann →
  response_annotation_ok (response ann) →
  model_or_undeclared (headers ann) →
  model_or_undeclared (match_info ann) →
  model_or_undeclared (query_params ann) →
  body ann = Some (AnnModel cls) →
  _fetch_body_data request = Ok data →
  not_a_mapping data →
  _validate_body_data request (AnnModel cls) = Raise TypeError ∧
  _handle_incoming_request self request st = Raise TypeError.
Proof.
  intros Hin Hattr Hann Hresp Hh Hmi Hqp Hbody Hfetch Hdata.
  pose proof (_validate_body_data_not_a_mapping request cls data Hfetch Hdata) as Hv.
  split; [exact Hv|].
  apply (_handle_incoming_request_extraction_error self request st method ann);
    try done.
  by apply (_extract_data_body_raise request ann cls).
Qed.

Lemma X14_non_mapping_body_for_a_model_witness :
  _handle_incoming_request (view_with "post" post_headers_body)
    (sample_request "POST" [("X-Token", "t"); ("Content-Type", "application/json")]
       "[1]" (Some (PList [PInt 1])))
    empty_state = Raise TypeError.
Proof.
  refine (proj2 (X14_non_mapping_body_for_a_model
    (view_with "post" post_headers_body)
    (sample_request "POST" [("X-Token", "t"); ("Content-Type", "application/json")]
       "[1]" (Some (PList [PInt 1])))
    empty_state post_headers_body headers_body_annotations NamedBody (PList [PInt 1])
    _ eq_refl eq_refl I I I I eq_refl eq_refl I)).
  by vm_compute.
Defined.

Lemma last_Forall {A} (P : A → Prop) (l : list A) (x : A) :
  Forall P (x :: l) → P (List.last l x).
Proof.
  revert x. induction l as [|y l IH]; intros x H.
  - by apply Forall_cons_1 in H as [].
  - apply Forall_cons_1 in H as [Hx H]. destruct l as [|z l].
    + by apply Forall_cons_1 in H as [].
    + change (P (List.last (z :: l) x)). apply IH. constructor; [done|].
      by apply Forall_cons_1 in H as [].
Qed.

(** X15: a form body always parses; a key is absent from the result
    exactly when it has no (non-blank) value in the body, and every value of
    the result is a non-empty string or a list of two strings whose first is
    one character long: no longer list is ever built. *)
Theorem X15_parse_qs_shape (qs : string) :
  ∃ d : gmap string pyval,
    _parse_qs qs = Ok d ∧
    ∀ name,
      (d !! name = None ↔ values_of name (parse_qsl qs) = []) ∧
      (∀ v, d !! name = Some v → form_value v).
Proof.
  destruct (_parse_qs_lookup qs) as (d & Hd & Hlk).
  exists d. split; [exact Hd|]. intros name. rewrite Hlk.
  pose proof (values_of_nonempty name _ (parse_qsl_values_nonempty qs)) as Hne.
  destruct (values_of name (parse_qsl qs)) as [|v1 [|v2 later]]; cbn.
  - split; [done|]. intros v Hv. discriminate Hv.
  - apply Forall_cons_1 in Hne as [Hv1 _].
    split; [split; intros H; discriminate H|].
    intros v [= <-]. left. by exists v1.
  - apply Forall_cons_1 in Hne as [Hv1 Hne].
    split; [split; intros H; discriminate H|].
    intros v [= <-]. right.
    exists (first_char v1), (List.last later v2). split; [done|].
    split; [by apply first_char_single|].
    by apply (last_Forall (λ v, v ≠ EmptyString)).
Qed.

Lemma as_kwargs_form (d : gmap string pyval) :
  as_kwargs (PDict (map_to_list d)) = Ok d.
Proof. cbn. by rewrite list_to_map_to_list. Qed.

(** X16: a form body sent to a body parameter annotated with a model
    class.  A body that is not UTF-8 raises [UnicodeDecodeError].  A body
    that decodes always parses, and the model is called with the parsed
    mapping itself as keyword arguments: a key named as the first parameter
    of the constructor makes the call raise [TypeError]; without such a key
    the outcome is the model instance, or the errors of the validation. *)
Theorem X16_form_body_reaches_the_schema request cls :
  _request_content_type request = Some "application/x-www-form-urlencoded" →
  (utf8_valid (req_body request) = false →
   _validate_body_data request (AnnModel cls) = Raise UnicodeDecodeError) ∧
  (utf8_valid (req_body request) = true →
   ∃ d : gmap string pyval,
     _parse_qs (unquote (req_body request)) = Ok d ∧
     (is_Some (d !! pydantic_self) →
      _validate_body_data request (AnnModel cls) = Raise TypeError) ∧
     (d !! pydantic_self = None →
      (∀ m, validate cls d = inl m →
            _validate_body_data request (AnnModel cls) = Ok (Some (VModel m), None)) ∧
      (∀ errs, validate cls d = inr errs → errs ≠ [] →
               _validate_body_data request (AnnModel cls) = Ok (None, Some errs)))).
Proof.
  intros Hct. split.
  - intros Hbody. unfold _validate_body_data.
    by rewrite (_fetch_body_data_form_undecodable _ Hct Hbody).
  - intros Hbody.
    destruct (_parse_qs_lookup (unquote (req_body request))) as (d & Hd & _).
    exists d. split; [exact Hd|].
    unfold _validate_body_data. rewrite (_fetch_body_data_form _ Hct).
    unfold request_text. rewrite Hbody. cbn [mbind result_bind]. rewrite Hd.
    cbn [mbind result_bind]. rewrite as_kwargs_form. cbn [mbind result_bind].
    rewrite _validate_pydantic_schema_model. split.
    + intros Hkey. by rewrite bool_decide_eq_true_2.
    + intros Hkey. rewrite bool_decide_eq_false_2
        by (rewrite Hkey; by intros [? ?]).
      split.
      * by intros m ->.
      * intros errs -> Herrs. cbn. by destruct errs.
Qed.

Lemma X16_form_body_reaches_the_schema_witness :
  _validate_body_data (form_request "name=n&age=3") (AnnModel NamedBody)
  = Ok (Some (VModel {| model_fields := [("name", PStr "n")] |}), None) ∧
  _validate_body_data (form_request "name=n&__pydantic_self__=1") (AnnModel NamedBody)
  = Raise TypeError ∧
  _validate_body_data (form_request invalid_utf8) (AnnModel NamedBody)
  = Raise UnicodeDecodeError.
Proof.
  split; [|split].
  - destruct (proj2 (X16_form_body_reaches_the_schema (form_request "name=n&age=3")
                       NamedBody eq_refl) eq_refl) as (d & Hd & _ & Hok).
    vm_compute in Hd. injection Hd as <-.
    apply (proj1 (Hok eq_refl)). reflexivity.
  - destruct (proj2 (X16_form_body_reaches_the_schema
                       (form_request "name=n&__pydantic_self__=1")
                       NamedBody eq_refl) eq_refl) as (d & Hd & Hclash & _).
    vm_compute in Hd. injection Hd as <-.
    apply Hclash. by eexists.
  - exact (proj1 (X16_form_body_reaches_the_schema (form_request invalid_utf8)
                    NamedBody eq_refl) eq_refl).
Defined.

End bodies.

(** ** The reply to a request with errors *)

Section error_reply.

Implicit Types (request : Request) (ann : _ExtractedAnnotations)
  (extracted : _ExtractedData).

#[local] Arguments set_client_error : simpl never.
#[local] Arguments ResponseSchema_json : simpl never.

Lemma _return_json_response_fresh (h : list Response) (schema : _ResponseSchema)
    (code : Z) (doc : pyval) :
  ResponseSchema_json schema = Some doc →
  code ≠ 0 →
  _return_json_response (List.length h) schema code (h ++ [new_Response])
    = Ok (List.length h, (h ++ [json_response code doc])%list).
Proof.
  intros Hdoc Hcode. unfold _return_json_response. rewrite Hdoc.
  rewrite list_lookup_total_middle by done.
  rewrite insert_app_r_alt by done. rewrite Nat.sub_diag.
  destruct (Z.eqb_spec code 0) as [|_]; done.
Qed.

(** X17: when extraction ends with at least one error entry, the handler
    method is not called and the reply is a response created for the
    purpose, with status 400 and the envelope of the error mapping (no
    result) as its document; the response objects that existed, and the
    injected one, are left as they were.  Every declared surface whose
    validator returned errors has them under its name in that envelope. *)
Theorem X17_error_reply (self : View) request (st : State) (method : Method)
    ann extracted :
  req_method request ∈ METH_ALL →
  getattr self (lower (req_method request)) = Some method →
  _extract_annotations method = Ok ann →
  response_annotation_ok (response ann) →
  _extract_data request ann = Ok extracted →
  validation_errors extracted ≠ ∅ →
  ∃ doc : pyval,
    ResponseSchema_json (error_envelope (validation_errors extracted)) = Some doc ∧
    _handle_incoming_request self request st
      = Ok (OResponse (List.length (heap_at_call ann (heap st))),
            {| heap := (heap_at_call ann (heap st) ++ [json_response 400 doc])%list;
               invocations := invocations st |}) ∧
    ∀ s ty errs,
      declared ann s = Some ty →
      validate_surface request s ty = Ok (None, Some errs) →
      validation_errors extracted !! surface_name s = Some (Some errs).
Proof.
  intros Hin Hattr Hann Hresp Hdata Herrs.
  assert (∃ doc, ResponseSchema_json (error_envelope (validation_errors extracted))
                 = Some doc) as [doc Hdoc] by (by eexists).
  exists doc. split; [exact Hdoc|]. split.
  - assert (set_client_error new_ResponseSchema (validation_errors extracted)
            = error_envelope (validation_errors extracted)) as Henv.
    { unfold set_client_error, error_envelope, new_ResponseSchema, errors, result_.
      by rewrite (right_id_L ∅ (∪)). }
    unfold _handle_incoming_request, heap_at_call.
    rewrite bool_decide_eq_true_2 by done. cbn.
    unfold _get_handler_method. rewrite Hattr. cbn. rewrite Hann. cbn.
    destruct (response ann) as [[cls| |t|]|]; try done; cbn; rewrite Hdata; cbn;
      rewrite bool_decide_eq_false_2 by done; cbn; rewrite Henv;
      rewrite (_return_json_response_fresh _ _ 400 doc Hdoc) by done; done.
  - intros s ty errs Hdecl Hv.
    pose proof (_extract_data_stores_every_surface request ann extracted s Hdata) as Hs.
    rewrite Hdecl in Hs. destruct Hs as (v & Hv' & Hslots).
    rewrite Hv in Hv'. injection Hv' as <-. by injection Hslots as _ Hlk.
Qed.

Lemma X17_error_reply_witness :
  ∃ doc errs,
    _handle_incoming_request (view_with "post" post_headers_body)
      (sample_request "POST" [("Content-Type", "application/json")] EmptyString
         (Some (PDict [("name", PStr "n")])))
      empty_state
    = Ok (OResponse 0, {| heap := [json_response 400 doc]; invocations := [] |}) ∧
    ResponseSchema_json (error_envelope errs) = Some doc ∧
    errs !! "headers" = Some (Some [ {| loc := [LocStr "X-Token"];
                                        msg := "field required";
                                        type := "value_error.missing" |} ]) ∧
    errs !! "body" = None.
Proof.
  destruct (_extract_data
              (sample_request "POST" [("Content-Type", "application/json")] EmptyString
                 (Some (PDict [("name", PStr "n")])))
              headers_body_annotations) as [extracted|e] eqn:Hdata;
    [|vm_compute in Hdata; discriminate Hdata].
  assert (validation_errors extracted ≠ ∅ ∧
          validation_errors extracted !! "body" = None) as [Herrs Hbody].
  { vm_compute in Hdata. injection Hdata as <-. split; [|reflexivity].
    intros Hempty. apply (f_equal (λ m, m !! "headers")) in Hempty.
    vm_compute in Hempty. discriminate Hempty. }
  destruct (X17_error_reply (view_with "post" post_headers_body)
              (sample_request "POST" [("Content-Type", "application/json")] EmptyString
                 (Some (PDict [("name", PStr "n")])))
              empty_state post_headers_body headers_body_annotations extracted)
    as (doc & Hdoc & Hrun & Hsurf);
    [by vm_compute|reflexivity|reflexivity|exact I|exact Hdata|exact Herrs|].
  exists doc, (validation_errors extracted).
  split; [exact Hrun|]. split; [exact Hdoc|]. split; [|exact Hbody].
  apply (Hsurf Headers (AnnModel TokenHeaders)); reflexivity.
Defined.

(** X18: what the code does hold of the body content errors.  With a
    declared body surface, and when the validators of the other declared
    surfaces return, an absent Content-Type header, a Content-Type other
    than the three supported ones, and an [application/json] body that
    decodes as UTF-8 but does not parse each give one field error on the
    body surface, with the message of the case (the second one names the
    offending value); the pipeline then returns a response with status 400
    whose envelope binds [body] to that error, and the handler method is
    not called. *)
Theorem X18_body_content_errors_give_400 (self : View) request (st : State)
    (method : Method) ann (body_type : annotation) (m : string) :
  req_method request ∈ METH_ALL →
  getattr self (lower (req_method request)) = Some method →
  _extract_annotations method = Ok ann →
  response_annotation_ok (response ann) →
  (∀ s ty, s ≠ Body → declared ann s = Some ty →
           ∃ v, validate_surface request s ty = Ok v) →
  declared ann Body = Some body_type →
  (_request_content_type request = None ∧ m = "missing Content-Type header")
  ∨ (∃ ct, _request_content_type request = Some ct ∧
           ct ≠ "application/json" ∧ ct ≠ "text/plain" ∧
           ct ≠ "application/x-www-form-urlencoded" ∧
           m = "cannot fetch body data. Content-Type '" +:+ ct +:+ "' not allowed here.")
  ∨ (_request_content_type request = Some "application/json" ∧
     utf8_valid (req_body request) = true ∧
     req_json request = None ∧ m = "body is not a json") →
  let body_error := {| loc := [LocStr "body"]; msg := m; type := "type_error.type" |} in
  _validate_body_data request body_type = Ok (None, Some [body_error]) ∧
  ∃ (r : nat) (h' : list Response) (errs : gmap string (option (list ErrorDict)))
    (doc : pyval),
    _handle_incoming_request self request st
      = Ok (OResponse r, {| heap := h'; invocations := invocations st |}) ∧
    h' !!! r = json_response 400 doc ∧
    ResponseSchema_json (error_envelope errs) = Some doc ∧
    errs !! "body" = Some (Some [body_error]).
Proof.
  intros Hin Hattr Hann Hresp Hother Hbody Hcase body_error. subst body_error.
  pose proof (_validate_body_data_fetch_error request body_type m Hcase) as Hv.
  split; [exact Hv|].
  destruct (_extract_data_body request ann body_type _ Hother Hbody Hv)
    as [acc Hdata].
  pose proof (store_validation_errors _body_params_schema_name
                (Some [ {| loc := [LocStr "body"]; msg := m;
                           type := "type_error.type" |} ]) acc) as Hlk.
  destruct (validation_errors_early_exit self request st method ann _
              Hin Hattr Hann Hresp Hdata) as (r & h' & doc & Hout & Hdoc & Hcell).
  { intros Hempty. rewrite Hempty, lookup_empty in Hlk. discriminate Hlk. }
  eexists r, h', _, doc. by repeat split.
Qed.

Lemma X18_body_content_errors_give_400_witness :
  let request := sample_request "POST" [("X-Token", "t"); ("Content-Type", "image/png")]
                   "hello" None in
  let body_error :=
    {| loc := [LocStr "body"];
       msg := "cannot fetch body data. Content-Type 'image/png' not allowed here.";
       type := "type_error.type" |} in
  ∃ (r : nat) (h' : list Response) (errs : gmap string (option (list ErrorDict)))
    (doc : pyval),
    _handle_incoming_request (view_with "post" post_headers_body) request empty_state
      = Ok (OResponse r, {| heap := h'; invocations := [] |}) ∧
    h' !!! r = json_response 400 doc ∧
    ResponseSchema_json (error_envelope errs) = Some doc ∧
    errs !! "body" = Some (Some [body_error]).
Proof.
  cbn zeta.
  refine (proj2 (X18_body_content_errors_give_400
    (view_with "post" post_headers_body)
    (sample_request "POST" [("X-Token", "t"); ("Content-Type", "image/png")] "hello" None)
    empty_state post_headers_body headers_body_annotations
    (AnnModel NamedBody) _ _ eq_refl eq_refl I _ eq_refl _)).
  - by vm_compute.
  - intros s ty Hs Hdecl. destruct s; try discriminate Hdecl; [|by destruct Hs].
    injection Hdecl as <-. eexists. reflexivity.
  - right. left. exists "image/png". repeat split; discriminate.
Defined.

End error_reply.
